(** * yfinance_bridge: a shallow embedding of [scripts/yfinance/yfinance_bridge.py]

    The bridge reads one JSON request from standard input, calls the market
    data provider, normalises tabular results and writes one JSON envelope.

    The Python program is embedded function by function.  What it takes from
    its libraries is modelled as follows.

    - Python values: an inductive type of scalars (None, bool, int, float,
      str, and the date-like objects pandas hands out) and of containers
      (list, dict with string keys, in insertion order).
    - Floats are IEEE-754 binary64 values, [spec_float] of the Standard
      Library with precision 53 and maximal exponent 1024.
    - Exceptions are instances of Python's [Exception], carried by the
      [Raise] side of [result]; [exn_str] is what [str(exc)] returns.
    - A pandas [DataFrame] is its row labels, its column labels and its
      cells, Python scalars; the cast of a row to a common type, which
      changes how integers and booleans are held, is not modelled.
    - [json.dumps] is modelled up to the rendering of the text: standard
      output receives JSON documents ([json]).
    - The decoder [json.loads], the HTTP client and the ticker accessors are
      fields of an environment [Env]; every call to the provider is logged.
    - [repr] of a float and [float] of a string are parameters of the
      development ([float_repr], [float_of_str]). *)

From Stdlib Require Import ZArith List String Ascii Bool Lia.
From Stdlib Require Import DecimalString SpecFloat.
Import ListNotations.

Set Warnings "-register-all".

Local Open Scope string_scope.
Local Open Scope list_scope.

(* ================================================================== *)
(** ** Exceptions and results *)

Record exn : Type := mkExn { exn_class : string; exn_str : string }.

Inductive result (A : Type) : Type :=
| Ok (a : A)
| Raise (e : exn).
Arguments Ok {A} a.
Arguments Raise {A} e.

Definition rbind {A B} (m : result A) (k : A -> result B) : result B :=
  match m with
  | Ok a => k a
  | Raise e => Raise e
  end.

Declare Scope result_scope.
Delimit Scope result_scope with result.
Notation "x <- m ;; k" := (rbind m (fun x => k))
  (at level 61, m at next level, right associativity) : result_scope.

Local Open Scope result_scope.

(** [mapM] runs a loop body over a list, stopping at the first exception. *)
Definition mapM {A B} (f : A -> result B) : list A -> result (list B) :=
  fix go (l : list A) : result (list B) :=
    match l with
    | [] => Ok []
    | a :: l' => b <- f a ;; bs <- go l' ;; Ok (b :: bs)
    end.

(** [foldM] threads an accumulator through a loop body. *)
Fixpoint foldM {A S} (f : S -> A -> result S) (s : S) (l : list A) : result S :=
  match l with
  | [] => Ok s
  | a :: l' => s' <- f s a ;; foldM f s' l'
  end.

Definition TypeError (msg : string) : exn := mkExn "TypeError" msg.
Definition ValueError (msg : string) : exn := mkExn "ValueError" msg.
Definition AttributeError (msg : string) : exn := mkExn "AttributeError" msg.
Definition OverflowError (msg : string) : exn := mkExn "OverflowError" msg.

(* ================================================================== *)
(** ** Decimal formatting *)

Definition str_of_nat (n : nat) : string := NilZero.string_of_uint (Nat.to_uint n).
Definition str_of_Z (z : Z) : string := NilZero.string_of_int (Z.to_int z).

Fixpoint zeros (n : nat) : string :=
  match n with
  | O => ""
  | S k => String "0" (zeros k)
  end.

(** ["%0wd" % n] *)
Definition pad (w n : nat) : string :=
  let s := str_of_nat n in zeros (w - String.length s) ++ s.

(* ================================================================== *)
(** ** Dates and times *)

Record date : Type := mkDate { year : nat; month : nat; day : nat }.

(** [utcoffset] is the offset of an aware datetime in whole minutes, [None]
    for a naive one. *)
Record datetime : Type := mkDatetime {
  dt_date : date;
  hour : nat; minute : nat; second : nat; microsecond : nat;
  utcoffset : option Z
}.

(** A pandas [Timestamp] is a datetime with nanoseconds. *)
Record Timestamp : Type := mkTimestamp { ts_datetime : datetime; nanosecond : nat }.

Definition date_isoformat (d : date) : string :=
  pad 4 (year d) ++ "-" ++ pad 2 (month d) ++ "-" ++ pad 2 (day d).

Definition format_time (t : datetime) : string :=
  pad 2 (hour t) ++ ":" ++ pad 2 (minute t) ++ ":" ++ pad 2 (second t)
  ++ (if Nat.eqb (microsecond t) 0 then "" else "." ++ pad 6 (microsecond t)).

Definition format_offset (off : option Z) : string :=
  match off with
  | None => ""
  | Some m =>
      let a := Z.to_nat (Z.abs m) in
      (if Z.ltb m 0 then "-" else "+") ++ pad 2 (a / 60) ++ ":" ++ pad 2 (a mod 60)
  end.

(** [datetime.isoformat(sep)] *)
Definition datetime_isoformat (sep : string) (t : datetime) : string :=
  date_isoformat (dt_date t) ++ sep ++ format_time t ++ format_offset (utcoffset t).

(** [Timestamp.isoformat(sep)]: the nanoseconds are appended to the
    fraction when they are not zero. *)
Definition Timestamp_isoformat (sep : string) (ts : Timestamp) : string :=
  let t := ts_datetime ts in
  if Nat.eqb (nanosecond ts) 0 then datetime_isoformat sep t
  else
    date_isoformat (dt_date t) ++ sep ++ format_time t
    ++ (if Nat.eqb (microsecond t) 0 then "." ++ pad 9 (nanosecond ts)
        else pad 3 (nanosecond ts))
    ++ format_offset (utcoffset t).

(* ================================================================== *)
(** ** Python values *)

Inductive scalar : Type :=
| SNone
| SBool (b : bool)
| SInt (z : Z)
| SFloat (f : spec_float)
| SStr (s : string)
| SNaT                          (* pandas.NaT *)
| STimestamp (ts : Timestamp)   (* pandas.Timestamp *)
| SDatetime (t : datetime)      (* datetime.datetime *)
| SDate (d : date).             (* datetime.date *)

Inductive pyval : Type :=
| PScalar (s : scalar)
| PList (l : list pyval)
| PDict (d : list (string * pyval)).

Coercion PScalar : scalar >-> pyval.

Definition PNone : pyval := PScalar SNone.
Definition PStr (s : string) : pyval := PScalar (SStr s).
Definition PFloat (f : spec_float) : pyval := PScalar (SFloat f).

(** A Python [dict] with string keys, in insertion order. *)
Definition dict : Type := list (string * pyval).

Fixpoint dict_get (d : dict) (k : string) : option pyval :=
  match d with
  | [] => None
  | (k', v) :: d' => if String.eqb k' k then Some v else dict_get d' k
  end.

(** [d[k] = v]: an existing key keeps its place. *)
Fixpoint dict_set (d : dict) (k : string) (v : pyval) : dict :=
  match d with
  | [] => [(k, v)]
  | (k', v') :: d' =>
      if String.eqb k' k then (k', v) :: d' else (k', v') :: dict_set d' k v
  end.


Definition type_name (v : pyval) : string :=
  match v with
  | PScalar SNone => "NoneType"
  | PScalar (SBool _) => "bool"
  | PScalar (SInt _) => "int"
  | PScalar (SFloat _) => "float"
  | PScalar (SStr _) => "str"
  | PScalar SNaT => "NaTType"
  | PScalar (STimestamp _) => "Timestamp"
  | PScalar (SDatetime _) => "datetime.datetime"
  | PScalar (SDate _) => "datetime.date"
  | PList _ => "list"
  | PDict _ => "dict"
  end.

Definition no_attribute (v : pyval) (attr : string) : exn :=
  AttributeError ("'" ++ type_name v ++ "' object has no attribute '" ++ attr ++ "'").

(** [bool(v)] *)
Definition truthy (v : pyval) : bool :=
  match v with
  | PScalar SNone => false
  | PScalar (SBool b) => b
  | PScalar (SInt z) => negb (Z.eqb z 0)
  | PScalar (SFloat (S754_zero _)) => false
  | PScalar (SStr s) => negb (String.eqb s "")
  | PScalar _ => true
  | PList l => match l with [] => false | _ => true end
  | PDict d => match d with [] => false | _ => true end
  end.

(** [a or b] *)
Definition py_or (a b : pyval) : pyval := if truthy a then a else b.

(** [d.get(k)] *)
Definition dict_get_or_None (d : dict) (k : string) : pyval :=
  match dict_get d k with
  | Some x => x
  | None => PNone
  end.

(** [v.get(k)]: only a dict has the method. *)
Definition py_get (v : pyval) (k : string) : result pyval :=
  match v with
  | PDict d => Ok (dict_get_or_None d k)
  | _ => Raise (no_attribute v "get")
  end.

(** [v == "s"] for a string literal [s]. *)
Definition eq_str (v : pyval) (s : string) : bool :=
  match v with
  | PScalar (SStr s') => String.eqb s' s
  | _ => false
  end.

(* ------------------------------------------------------------------ *)
(** *** binary64 *)

Definition prec : Z := 53.
Definition emax : Z := 1024.

Definition float_of_Z (z : Z) : spec_float := binary_normalize prec emax z 0 false.

Definition is_nan (f : spec_float) : bool :=
  match f with
  | S754_nan => true
  | _ => false
  end.

(** [float(z)] for a Python int: the nearest binary64, ties to even;
    too large an int raises. *)
Definition float_of_int (z : Z) : result spec_float :=
  match float_of_Z z with
  | S754_infinity _ => Raise (OverflowError "int too large to convert to float")
  | f => Ok f
  end.

Definition isinstance_float (v : scalar) : bool :=
  match v with
  | SFloat _ => true
  | _ => false
  end.

(** [bool] is a subclass of [int]. *)
Definition isinstance_int (v : scalar) : bool :=
  match v with
  | SInt _ | SBool _ => true
  | _ => false
  end.

(** [isinstance(v, datetime)]: [Timestamp] and [NaT] derive from
    [datetime.datetime], [datetime.date] does not. *)
Definition isinstance_datetime (v : scalar) : bool :=
  match v with
  | STimestamp _ | SDatetime _ | SNaT => true
  | _ => false
  end.

(** [pandas.isna(v)] on a scalar. *)
Definition pd_isna (v : scalar) : bool :=
  match v with
  | SNone | SNaT => true
  | SFloat f => is_nan f
  | _ => false
  end.

(* ------------------------------------------------------------------ *)
(** *** Date-like attributes *)

Definition hasattr_date (v : scalar) : bool :=
  match v with
  | STimestamp _ | SDatetime _ | SNaT => true
  | _ => false
  end.

Definition hasattr_to_pydatetime (v : scalar) : bool :=
  match v with
  | STimestamp _ | SNaT => true
  | _ => false
  end.

Definition hasattr_isoformat (v : scalar) : bool :=
  match v with
  | STimestamp _ | SDatetime _ | SDate _ | SNaT => true
  | _ => false
  end.

(** [v.date()] *)
Definition py_date (v : scalar) : result scalar :=
  match v with
  | STimestamp ts => Ok (SDate (dt_date (ts_datetime ts)))
  | SDatetime t => Ok (SDate (dt_date t))
  | SNaT => Ok SNaT
  | _ => Raise (no_attribute v "date")
  end.

(** [v.to_pydatetime()] *)
Definition py_to_pydatetime (v : scalar) : result scalar :=
  match v with
  | STimestamp ts => Ok (SDatetime (ts_datetime ts))
  | SNaT => Ok SNaT
  | _ => Raise (no_attribute v "to_pydatetime")
  end.

(** [v.isoformat()] *)
Definition py_isoformat (v : scalar) : result string :=
  match v with
  | STimestamp ts => Ok (Timestamp_isoformat "T" ts)
  | SDatetime t => Ok (datetime_isoformat "T" t)
  | SDate d => Ok (date_isoformat d)
  | SNaT => Ok "NaT"
  | _ => Raise (no_attribute v "isoformat")
  end.

(* ================================================================== *)
(** ** pandas tables *)

(** A [Series] is a row of a table: labels with their values. *)
Definition Series : Type := list (scalar * scalar).

(** [cell i j] is the value stored at row [i] and column [j].  The model
    hands a value to the loops as it is stored.  pandas casts the values of a
    row to one common type first, which changes how an [int] or a [bool] is
    held; [float] of the value, its truth, and whether it is missing are the
    same either way, and so are the records of the statement normalizer and
    the price fields of the history normalizer.  What is said about a value
    that the history normalizer passes through is said for the values that
    [kept_by_row] accepts. *)
Record DataFrame : Type := mkDataFrame {
  index_name : option string;
  index : list scalar;
  columns : list scalar;
  cell : nat -> nat -> scalar
}.

(** [df.empty]: one of the axes has length zero. *)
Definition DataFrame_empty (df : DataFrame) : bool :=
  match index df, columns df with
  | [], _ | _, [] => true
  | _, _ => false
  end.

(** [df.columns = labels] *)
Definition set_columns (df : DataFrame) (labels : list scalar) : DataFrame :=
  mkDataFrame (index_name df) (index df) labels (cell df).

(** [df.transpose()] *)
Definition transpose (df : DataFrame) : DataFrame :=
  mkDataFrame None (columns df) (index df) (fun i j => cell df j i).

Definition enumerate {A} (l : list A) : list (nat * A) :=
  combine (seq 0 (List.length l)) l.

(** [df.iterrows()]: every row label with its row, the cells as they are
    stored (see [DataFrame] for the cast pandas applies to a row). *)
Definition iterrows (df : DataFrame) : list (scalar * Series) :=
  map (fun '(i, idx) =>
         (idx, map (fun '(j, col) => (col, cell df i j)) (enumerate (columns df))))
      (enumerate (index df)).

Definition label_is (name : string) (l : scalar) : bool :=
  match l with
  | SStr s => String.eqb s name
  | _ => false
  end.

Definition has_label (name : string) (labels : list scalar) : bool :=
  existsb (label_is name) labels.

(** The label [reset_index] gives the column of the row labels: the name of
    the index, [index] when it has none ([level_0] when that is taken). *)
Definition index_label (df : DataFrame) : string :=
  match index_name df with
  | Some n => n
  | None => if has_label "index" (columns df) then "level_0" else "index"
  end.

(** [df.reset_index()]: the row labels become the first column and the rows
    are numbered anew.  A label that is already a column raises.  The labels
    are then cells like the others, and are cast with their row like the
    others (see [DataFrame]). *)
Definition reset_index (df : DataFrame) : result DataFrame :=
  let name := index_label df in
  if has_label name (columns df) then
    Raise (ValueError ("cannot insert " ++ name ++ ", already exists"))
  else
    Ok (mkDataFrame None
          (map (fun i => SInt (Z.of_nat i)) (seq 0 (List.length (index df))))
          (SStr name :: columns df)
          (fun i j =>
             match j with
             | O => nth i (index df) SNone
             | S j' => cell df i j'
             end)).

(** [row.get(key)] on a row whose labels are distinct: the value under the
    label, [None] when there is none.  (Under a label that occurs twice
    pandas hands out a sub-series; the facts on the history normalizer are
    therefore stated for tables with distinct labels.) *)
Fixpoint Series_get (row : Series) (key : string) : scalar :=
  match row with
  | [] => SNone
  | (l, v) :: row' => if label_is key l then v else Series_get row' key
  end.

(* ================================================================== *)
(** ** The normalizers *)

(** [repr] of a float, and [float] of a string, as Python defines them. *)
Class Builtins : Type := mkBuiltins {
  float_repr : spec_float -> string;
  float_of_str : string -> result spec_float
}.

Section Normalizers.

Context {B : Builtins}.

(** [str(v)] *)
Definition py_str (v : scalar) : string :=
  match v with
  | SNone => "None"
  | SBool b => if b then "True" else "False"
  | SInt z => str_of_Z z
  | SFloat f => float_repr f
  | SStr s => s
  | SNaT => "NaT"
  | STimestamp ts => Timestamp_isoformat " " ts
  | SDatetime t => datetime_isoformat " " t
  | SDate d => date_isoformat d
  end.

(** [float(v)] *)
Definition py_float (v : scalar) : result spec_float :=
  match v with
  | SFloat f => Ok f
  | SInt z => float_of_int z
  | SBool b => Ok (float_of_Z (if b then 1 else 0))
  | SStr s => float_of_str s
  | _ => Raise (TypeError ("float() argument must be a string or a real number, not '"
                           ++ type_name v ++ "'"))
  end.

(** Lines 32-39: the new label of a column. *)
Definition relabel (col : scalar) : string :=
  if hasattr_date col then
    match (d <- py_date col ;; py_isoformat d) with
    | Ok s => s
    | Raise _ => py_str col
    end
  else py_str col.

(** Lines 45-51: one line item of a period. *)
Definition record_step (rec : dict) (kv : scalar * scalar) : result dict :=
  let '(key, val) := kv in
  if pd_isna val then Ok rec
  else if isinstance_float val || isinstance_int val then
    f <- py_float val ;; Ok (dict_set rec (py_str key) (PFloat f))
  else Ok (dict_set rec (py_str key) (PScalar val)).

(** Lines 44-52: the record of a period. *)
Definition period_record (idx : scalar) (row : Series) : result dict :=
  foldM record_step [("report_period", PStr (py_str idx))] row.

Definition df_to_records (df : option DataFrame) : result (list dict) :=
  match df with
  | None => Ok []
  | Some df =>
      if DataFrame_empty df then Ok []
      else
        let columns := map relabel (columns df) in
        let df := set_columns df (map SStr columns) in
        let df := transpose df in
        mapM (fun '(idx, row) => period_record idx row) (iterrows df)
  end.

(** [float(x) if x is not None else None] *)
Definition float_or_None (x : scalar) : result pyval :=
  match x with
  | SNone => Ok PNone
  | _ => f <- py_float x ;; Ok (PFloat f)
  end.

(** Lines 62-66: the date of a bar. *)
Definition bar_date (row : Series) : result scalar :=
  let date_value :=
    if truthy (Series_get row "Date") then Series_get row "Date"
    else Series_get row "Datetime" in
  if hasattr_to_pydatetime date_value then
    d <- py_to_pydatetime date_value ;; s <- py_isoformat d ;; Ok (SStr s)
  else if hasattr_isoformat date_value then
    s <- py_isoformat date_value ;; Ok (SStr s)
  else Ok date_value.

(** Lines 62-74: the record of a bar. *)
Definition bar_record (row : Series) : result dict :=
  date_value <- bar_date row ;;
  open <- float_or_None (Series_get row "Open") ;;
  high <- float_or_None (Series_get row "High") ;;
  low <- float_or_None (Series_get row "Low") ;;
  close <- float_or_None (Series_get row "Close") ;;
  volume <- float_or_None (Series_get row "Volume") ;;
  Ok [("date", PScalar date_value); ("open", open); ("high", high);
      ("low", low); ("close", close); ("volume", volume)].

Definition normalize_history (df : option DataFrame) : result (list dict) :=
  match df with
  | None => Ok []
  | Some df =>
      if DataFrame_empty df then Ok []
      else
        df <- reset_index df ;;
        mapM (fun '(_, row) => bar_record row) (iterrows df)
  end.

End Normalizers.

(* ================================================================== *)
(** ** JSON documents, the environment and the process state *)

Inductive json : Type :=
| JNull
| JBool (b : bool)
| JInt (z : Z)
| JFloat (f : spec_float)
| JStr (s : string)
| JArr (l : list json)
| JObj (l : list (string * json)).

(** What [requests.get] returns. *)
Record Response : Type := mkResponse {
  raise_for_status : result unit;
  response_json : result pyval
}.

(** The collaborators of the bridge: the JSON decoder, the HTTP client and
    the ticker of the provider (its constructor, [history], the attributes
    holding a value and the attributes holding a table). *)
Record Env : Type := mkEnv {
  json_loads : string -> result pyval;
  requests_get : string -> dict -> result Response;
  yf_Ticker : pyval -> result unit;
  ticker_history : pyval -> pyval -> pyval -> pyval -> result (option DataFrame);
  ticker_value : pyval -> string -> result pyval;
  ticker_table : pyval -> string -> result (option DataFrame)
}.

(** The calls made to the provider. *)
Inductive call : Type :=
| HttpGet (url : string) (params : dict)
| NewTicker (symbol : pyval)
| TickerHistory (symbol start_date end_date interval : pyval)
| TickerAttr (symbol : pyval) (attr : string).

(** What the process has written and whom it has called. *)
Record World : Type := mkWorld { stdout : list json; calls : list call }.

Definition world0 : World := mkWorld [] [].

(** Computations that may raise and that change the world. *)
Definition M (A : Type) : Type := World -> result A * World.

Definition ret {A} (a : A) : M A := fun w => (Ok a, w).

Definition lift {A} (r : result A) : M A := fun w => (r, w).

Definition mbind {A B} (m : M A) (k : A -> M B) : M B :=
  fun w =>
    match m w with
    | (Ok a, w') => k a w'
    | (Raise e, w') => (Raise e, w')
    end.

Notation "x <~ m ;; k" := (mbind m (fun x => k))
  (at level 61, m at next level, right associativity) : result_scope.

(** [try: body except Exception as exc: handler(exc)] *)
Definition try_except {A} (body : M A) (handler : exn -> M A) : M A :=
  fun w =>
    match body w with
    | (Ok a, w') => (Ok a, w')
    | (Raise e, w') => handler e w'
    end.

(** [sys.stdout.write] of a rendered document. *)
Definition stdout_write (j : json) : M unit :=
  fun w => (Ok tt, mkWorld (stdout w ++ [j]) (calls w)).

(** A call to the provider: it is logged, then answers or raises. *)
Definition provider {A} (c : call) (answer : result A) : M A :=
  fun w => (answer, mkWorld (stdout w) (calls w ++ [c])).

(* ================================================================== *)
(** ** The bridge *)

Section Bridge.

Context {B : Builtins}.
Variable E : Env.

Definition _json_default (value : scalar) : result string :=
  if isinstance_datetime value then py_isoformat value
  else Ok (py_str value).

(** [json.dumps(v, default=_json_default)], up to the rendering of the
    text: what JSON has no form for goes through [_json_default]. *)
Fixpoint json_dumps (v : pyval) : result json :=
  match v with
  | PScalar SNone => Ok JNull
  | PScalar (SBool b) => Ok (JBool b)
  | PScalar (SInt z) => Ok (JInt z)
  | PScalar (SFloat f) => Ok (JFloat f)
  | PScalar (SStr s) => Ok (JStr s)
  | PScalar other => s <- _json_default other ;; Ok (JStr s)
  | PList l => js <- mapM json_dumps l ;; Ok (JArr js)
  | PDict d =>
      kjs <- mapM (fun kv => j <- json_dumps (snd kv) ;; Ok (fst kv, j)) d ;;
      Ok (JObj kjs)
  end.

Definition respond (ok : bool) (data error : pyval) : M unit :=
  let payload := [("ok", PScalar (SBool ok))] in
  let payload :=
    if ok then
      dict_set (dict_set payload "data" data) "source" (PStr "yfinance/yahoo")
    else
      dict_set payload "error" (py_or error (PStr "unknown error")) in
  text <~ lift (json_dumps (PDict payload)) ;;
  stdout_write text.

Definition search_url : string := "https://query1.finance.yahoo.com/v1/finance/search".

Definition handle_search (query : pyval) : M pyval :=
  let params := [("q", query); ("lang", PStr "en-US"); ("region", PStr "US")] in
  resp <~ provider (HttpGet search_url params) (requests_get E search_url params) ;;
  _ <~ lift (raise_for_status resp) ;;
  lift (response_json resp).

(** [interval_map.get(interval, interval)]: the key has to be hashable. *)
Definition interval_map_get (interval : pyval) : result pyval :=
  match interval with
  | PList _ | PDict _ =>
      Raise (TypeError ("unhashable type: '" ++ type_name interval ++ "'"))
  | PScalar (SStr s) =>
      Ok (if String.eqb s "minute" then PStr "1m"
          else if String.eqb s "day" then PStr "1d"
          else if String.eqb s "week" then PStr "1wk"
          else if String.eqb s "month" then PStr "1mo"
          else if String.eqb s "year" then PStr "1y"
          else interval)
  | _ => Ok interval
  end.

Definition records_value (recs : list dict) : pyval := PList (map PDict recs).

Definition handle_history (symbol start_date end_date interval : pyval) : M pyval :=
  yf_interval <~ lift (interval_map_get interval) ;;
  _ <~ provider (NewTicker symbol) (yf_Ticker E symbol) ;;
  df <~ provider (TickerHistory symbol start_date end_date yf_interval)
          (ticker_history E symbol start_date end_date yf_interval) ;;
  recs <~ lift (normalize_history df) ;;
  ret (records_value recs).

Definition handle_news (symbol : pyval) : M pyval :=
  _ <~ provider (NewTicker symbol) (yf_Ticker E symbol) ;;
  provider (TickerAttr symbol "news") (ticker_value E symbol "news").

Definition estimate_fields : list string :=
  ["targetMeanPrice"; "targetHighPrice"; "targetLowPrice"; "recommendationMean";
   "recommendationKey"; "numberOfAnalystOpinions"; "forwardEps"; "trailingEps"].

Definition handle_estimates (symbol : pyval) : M pyval :=
  _ <~ provider (NewTicker symbol) (yf_Ticker E symbol) ;;
  info <~ provider (TickerAttr symbol "info") (ticker_value E symbol "info") ;;
  let info := py_or info (PDict []) in
  fields <~ lift (mapM (fun k => v <- py_get info k ;; Ok (k, v)) estimate_fields) ;;
  ret (PDict [("info", PDict fields)]).

Definition handle_info (symbol : pyval) : M pyval :=
  _ <~ provider (NewTicker symbol) (yf_Ticker E symbol) ;;
  info <~ provider (TickerAttr symbol "info") (ticker_value E symbol "info") ;;
  ret (py_or info (PDict [])).

(** The attributes that hold the annual and the quarterly table. *)
Definition statement_attrs (statement_type : pyval) : string * string :=
  if eq_str statement_type "income" then ("financials", "quarterly_financials")
  else if eq_str statement_type "balance" then ("balance_sheet", "quarterly_balance_sheet")
  else ("cashflow", "quarterly_cashflow").

Definition handle_statements (symbol statement_type : pyval) : M pyval :=
  _ <~ provider (NewTicker symbol) (yf_Ticker E symbol) ;;
  let '(a, q) := statement_attrs statement_type in
  annual <~ provider (TickerAttr symbol a) (ticker_table E symbol a) ;;
  quarterly <~ provider (TickerAttr symbol q) (ticker_table E symbol q) ;;
  annual_records <~ lift (df_to_records annual) ;;
  quarterly_records <~ lift (df_to_records quarterly) ;;
  ret (PDict [("annual", records_value annual_records);
              ("quarterly", records_value quarterly_records)]).

(** [sys.stdin.read() or "{}"], for the text [stdin] that is read. *)
Definition request_text (stdin : string) : string :=
  if String.eqb stdin "" then "{}" else stdin.

(** Lines 144-167: the body of the [try]. *)
Definition main_body (stdin : string) : M unit :=
  payload <~ lift (json_loads E (request_text stdin)) ;;
  action <~ lift (py_get payload "action") ;;
  if eq_str action "search" then
    query <~ lift (py_get payload "query") ;;
    data <~ handle_search query ;;
    respond true data PNone
  else if eq_str action "history" then
    symbol <~ lift (py_get payload "symbol") ;;
    start_date <~ lift (py_get payload "start_date") ;;
    end_date <~ lift (py_get payload "end_date") ;;
    interval <~ lift (py_get payload "interval") ;;
    data <~ handle_history symbol start_date end_date interval ;;
    respond true data PNone
  else if eq_str action "news" then
    symbol <~ lift (py_get payload "symbol") ;;
    data <~ handle_news symbol ;;
    respond true data PNone
  else if eq_str action "estimates" then
    symbol <~ lift (py_get payload "symbol") ;;
    data <~ handle_estimates symbol ;;
    respond true data PNone
  else if eq_str action "info" then
    symbol <~ lift (py_get payload "symbol") ;;
    data <~ handle_info symbol ;;
    respond true data PNone
  else if eq_str action "statements" then
    symbol <~ lift (py_get payload "symbol") ;;
    statement_type <~ lift (py_get payload "statement_type") ;;
    data <~ handle_statements symbol statement_type ;;
    respond true data PNone
  else
    respond false PNone (PStr "Unsupported action").

Definition main (stdin : string) : M unit :=
  try_except (main_body stdin)
             (fun exc => respond false PNone (PStr (exn_str exc))).

End Bridge.

(* ================================================================== *)
(** ** Notions the theorems are stated with *)

(* ------------------------------------------------------------------ *)
(** *** Statement tables *)

(** The row of a table at position [i]. *)
Definition row_of (df : DataFrame) (i : nat) : Series :=
  map (fun '(j, col) => (col, cell df i j)) (enumerate (columns df)).

(** The line items of the period in column [i]. *)
Definition period_row (df : DataFrame) (i : nat) : Series :=
  map (fun '(j, key) => (key, cell df j i)) (enumerate (index df)).

(** The value a line item is emitted with (lines 48-51). *)
Definition coerce {B : Builtins} (val : scalar) : result pyval :=
  if isinstance_float val || isinstance_int val then
    f <- py_float val ;; Ok (PFloat f)
  else Ok (PScalar val).

(** An emitted value that is not missing: neither [None], nor NaN, nor NaT. *)
Definition present (v : pyval) : Prop :=
  match v with
  | PScalar s => pd_isna s = false
  | _ => False
  end.

(** An integer cell that [float] accepts; any other cell. *)
Definition converts (v : scalar) : bool :=
  match v with
  | SInt z => match float_of_int z with Ok _ => true | Raise _ => false end
  | _ => true
  end.

(* ------------------------------------------------------------------ *)
(** *** Price tables *)

(** The price columns and the fields they are emitted under. *)
Definition price_fields : list (string * string) :=
  [("Open", "open"); ("High", "high"); ("Low", "low"); ("Close", "close");
   ("Volume", "volume")].

(** The row the loop of [normalize_history] sees at position [i]: the row
    label under the label of the index, then the cells. *)
Definition history_row (df : DataFrame) (i : nat) : Series :=
  (SStr (index_label df), nth i (index df) SNone) :: row_of df i.

(** [row.get("Date") or row.get("Datetime")] *)
Definition date_value_of (row : Series) : scalar :=
  if truthy (Series_get row "Date") then Series_get row "Date"
  else Series_get row "Datetime".

(** What lines 63-66 make of a date value: the ISO-8601 text of a timestamp,
    a datetime or a date, the text [NaT] of pandas' missing timestamp, and
    any other value as it is. *)
Definition date_field (v : scalar) : scalar :=
  match v with
  | STimestamp ts => SStr (datetime_isoformat "T" (ts_datetime ts))
  | SDatetime t => SStr (datetime_isoformat "T" t)
  | SDate d => SStr (date_isoformat d)
  | SNaT => SStr "NaT"
  | other => other
  end.


(** The shape of the texts [isoformat] produces, see [date_isoformat_like]
    and [datetime_isoformat_like]. *)
Definition is_digit (c : ascii) : bool :=
  Nat.leb 48 (nat_of_ascii c) && Nat.leb (nat_of_ascii c) 57.

(** [like pat s]: the text [s] has the shape [pat], where the letter [d] of
    the pattern stands for a decimal digit and any other character for
    itself. *)
Fixpoint like (pat s : string) : bool :=
  match pat, s with
  | EmptyString, EmptyString => true
  | String p pat', String c s' =>
      (if Ascii.eqb p "d"%char then is_digit c else Ascii.eqb p c) && like pat' s'
  | _, _ => false
  end.

(** [starts_like pat s]: a prefix of [s] has the shape [pat]. *)
Fixpoint starts_like (pat s : string) : bool :=
  match pat, s with
  | EmptyString, _ => true
  | String p pat', String c s' =>
      (if Ascii.eqb p "d"%char then is_digit c else Ascii.eqb p c) && starts_like pat' s'
  | _, _ => false
  end.

(** The ranges [datetime] keeps its fields in. *)
Definition date_in_range (d : date) : Prop :=
  year d < 100 * 100 /\ month d < 100 /\ day d < 100.

Definition time_in_range (t : datetime) : Prop :=
  hour t < 100 /\ minute t < 100 /\ second t < 100.



(* ------------------------------------------------------------------ *)
(** *** Envelopes and effects *)

(** The failure envelope [respond(False, error=msg)] writes. *)
Definition failure (msg : string) : json :=
  JObj [("ok", JBool false);
        ("error", JStr (if String.eqb msg "" then "unknown error" else msg))].

(** The success envelope around rendered data. *)
Definition success (data : json) : json :=
  JObj [("ok", JBool true); ("data", data); ("source", JStr "yfinance/yahoo")].

(** The actions the dispatcher knows. *)
Definition actions : list string :=
  ["search"; "history"; "news"; "estimates"; "info"; "statements"].

(** A computation that writes nothing. *)
Definition quiet {A} (m : M A) : Prop :=
  forall w, stdout (snd (m w)) = stdout w.

(** A computation that writes one document, as its last step, when it
    returns, and nothing when it raises. *)
Definition writes_last (m : M unit) : Prop :=
  forall w,
    match m w with
    | (Ok _, w') => exists j, stdout w' = stdout w ++ [j]
    | (Raise _, w') => stdout w' = stdout w
    end.

(* ================================================================== *)
(** ** Sample inputs *)

(** Stand-ins for the two builtins in the closed examples, which print no
    finite float and convert no number written as text: right on the special
    values, a fixed answer elsewhere. *)
Definition sample_builtins : Builtins :=
  mkBuiltins
    (fun f =>
       match f with
       | S754_nan => "nan"
       | S754_infinity false => "inf"
       | S754_infinity true => "-inf"
       | _ => "0.0"
       end)
    (fun s =>
       if String.eqb s "nan" then Ok S754_nan
       else if String.eqb s "inf" then Ok (S754_infinity false)
       else Raise (ValueError ("could not convert string to float: '" ++ s ++ "'"))).

Definition midnight (y m d : nat) : Timestamp :=
  mkTimestamp (mkDatetime (mkDate y m d) 0 0 0 0 None) 0.

Definition at_time (y m d hh mm : nat) (off : Z) : Timestamp :=
  mkTimestamp (mkDatetime (mkDate y m d) hh mm 0 0 (Some off)) 0.

(** One line item, one period, the integer 42. *)
Definition revenue_table : DataFrame :=
  mkDataFrame None [SStr "Total Revenue"] [STimestamp (midnight 2023 12 31)]
    (fun _ _ => SInt 42).

(** Two line items over two periods; the revenue of 2022 is missing. *)
Definition income_table : DataFrame :=
  mkDataFrame None
    [SStr "Total Revenue"; SStr "Net Income"]
    [STimestamp (midnight 2023 12 31); STimestamp (midnight 2022 12 31)]
    (fun i j =>
       match i, j with
       | 0, 0 => SFloat (float_of_Z 100)
       | 0, _ => SFloat S754_nan
       | _, 0 => SInt 7
       | _, _ => SFloat (float_of_Z 5)
       end).

(** A table whose only line item is itself labelled [report_period]. *)
Definition overwritten_table : DataFrame :=
  mkDataFrame None [SStr "report_period"] [STimestamp (midnight 2023 12 31)]
    (fun _ _ => SFloat (float_of_Z 1)).

(** A table with no period. *)
Definition empty_table : DataFrame :=
  mkDataFrame None [] [] (fun _ _ => SNone).

(** Two daily bars; the close of the second one is not a number, and there
    is no volume column. *)
Definition bars_table : DataFrame :=
  mkDataFrame (Some "Date")
    [STimestamp (at_time 2024 1 2 0 0 (-300)); STimestamp (at_time 2024 1 3 0 0 (-300))]
    [SStr "Open"; SStr "High"; SStr "Low"; SStr "Close"]
    (fun i j =>
       match i, j with
       | 1, 3 => SFloat S754_nan
       | _, 0 => SFloat (float_of_Z 10)
       | _, 1 => SFloat (float_of_Z 12)
       | _, 2 => SFloat (float_of_Z 9)
       | _, _ => SFloat (float_of_Z 11)
       end).

(** The two bars of [bars_table]. *)
Definition bar_2024_01_02 : dict :=
  [("date", PStr "2024-01-02T00:00:00-05:00");
   ("open", PFloat (float_of_Z 10)); ("high", PFloat (float_of_Z 12));
   ("low", PFloat (float_of_Z 9)); ("close", PFloat (float_of_Z 11));
   ("volume", PNone)].

Definition bar_2024_01_03 : dict :=
  [("date", PStr "2024-01-03T00:00:00-05:00");
   ("open", PFloat (float_of_Z 10)); ("high", PFloat (float_of_Z 12));
   ("low", PFloat (float_of_Z 9)); ("close", PFloat S754_nan);
   ("volume", PNone)].


Definition JSONDecodeError (msg : string) (lineno colno pos : nat) : exn :=
  mkExn "JSONDecodeError"
        (msg ++ ": line " ++ str_of_nat lineno ++ " column " ++ str_of_nat colno
             ++ " (char " ++ str_of_nat pos ++ ")").

Definition dq : string := String (ascii_of_nat 34) EmptyString.

(** The text [{"action": "news", "symbol": "AAPL"}]. *)
Definition news_request : string :=
  "{" ++ dq ++ "action" ++ dq ++ ": " ++ dq ++ "news" ++ dq ++ ", "
      ++ dq ++ "symbol" ++ dq ++ ": " ++ dq ++ "AAPL" ++ dq ++ "}".

(** The text [{"action": "statements", "symbol": "AAPL", "statement_type": "income"}]. *)
Definition statements_request : string :=
  "{" ++ dq ++ "action" ++ dq ++ ": " ++ dq ++ "statements" ++ dq ++ ", "
      ++ dq ++ "symbol" ++ dq ++ ": " ++ dq ++ "AAPL" ++ dq ++ ", "
      ++ dq ++ "statement_type" ++ dq ++ ": " ++ dq ++ "income" ++ dq ++ "}".

(** [json.loads] on the texts of the examples; every other text is taken
    for one that starts with no JSON value. *)
Definition sample_loads (s : string) : result pyval :=
  if String.eqb s "{}" then Ok (PDict [])
  else if String.eqb s "[]" then Ok (PList [])
  else if String.eqb s "{" then
    Raise (JSONDecodeError "Expecting property name enclosed in double quotes" 1 2 1)
  else if String.eqb s news_request then
    Ok (PDict [("action", PStr "news"); ("symbol", PStr "AAPL")])
  else if String.eqb s statements_request then
    Ok (PDict [("action", PStr "statements"); ("symbol", PStr "AAPL");
               ("statement_type", PStr "income")])
  else Raise (JSONDecodeError "Expecting value" 1 1 0).

(** A provider whose network is down for values, that has no annual income
    statement but a quarterly one, and price bars. *)
Definition sample_env : Env :=
  mkEnv sample_loads
        (fun _ _ => Raise (mkExn "ConnectionError" "Max retries exceeded"))
        (fun _ => Ok tt)
        (fun _ _ _ _ => Ok (Some bars_table))
        (fun _ _ => Raise (mkExn "ConnectionError" "Max retries exceeded"))
        (fun _ attr =>
           if String.eqb attr "financials" then Ok (Some empty_table)
           else if String.eqb attr "quarterly_financials" then Ok (Some income_table)
           else Ok None).

(* ================================================================== *)
(** ** Further notions and inputs *)

(** A JSON document as the Python value it stands for. *)
Fixpoint of_json (j : json) : pyval :=
  match j with
  | JNull => PNone
  | JBool b => PScalar (SBool b)
  | JInt z => PScalar (SInt z)
  | JFloat f => PFloat f
  | JStr s => PStr s
  | JArr l => PList (map of_json l)
  | JObj l => PDict (map (fun kj => (fst kj, of_json (snd kj))) l)
  end.

(** A computation that makes at most [n] calls to the provider. *)
Definition calls_within {A} (n : nat) (m : M A) : Prop :=
  forall w, exists cs, calls (snd (m w)) = calls w ++ cs /\ List.length cs <= n.

(** The two envelopes of the bridge. *)
Definition envelope (j : json) : Prop :=
  (exists data, j = success data) \/
  (exists msg, msg <> "" /\ j = JObj [("ok", JBool false); ("error", JStr msg)]).

(** A computation that, when it returns, has written one envelope as its
    last step, and that has written nothing when it raises. *)
Definition responds_last (m : M unit) : Prop :=
  forall w,
    match m w with
    | (Ok _, w') => exists j, stdout w' = stdout w ++ [j] /\ envelope j
    | (Raise _, w') => stdout w' = stdout w
    end.

(** A number, as opposed to a float: an [int] or a [bool]. *)
Definition is_int (v : pyval) : bool :=
  match v with
  | PScalar (SInt _) | PScalar (SBool _) => true
  | _ => false
  end.

(** A statement whose only cell is an integer of 400 digits. *)
Definition huge_table : DataFrame :=
  mkDataFrame None [SStr "Total Assets"] [STimestamp (midnight 2023 12 31)]
    (fun _ _ => SInt (10 ^ 400)).

(** Bars with columns but no row, and bars with rows but no column. *)
Definition no_rows_table : DataFrame :=
  mkDataFrame (Some "Date") [] [SStr "Open"; SStr "Close"] (fun _ _ => SNone).

Definition no_columns_table : DataFrame :=
  mkDataFrame (Some "Date")
    [STimestamp (at_time 2024 1 2 0 0 (-300)); STimestamp (at_time 2024 1 3 0 0 (-300))]
    [] (fun _ _ => SNone).

(** A bar whose volume is a missing timestamp. *)
Definition broken_table : DataFrame :=
  mkDataFrame (Some "Date") [STimestamp (at_time 2024 1 2 0 0 (-300))]
    [SStr "Open"; SStr "Volume"]
    (fun _ j => match j with 0 => SFloat (float_of_Z 10) | _ => SNaT end).

(** Two bars within a day, indexed by [Datetime]. *)
Definition intraday_table : DataFrame :=
  mkDataFrame (Some "Datetime")
    [STimestamp (at_time 2024 1 2 9 30 (-300)); STimestamp (at_time 2024 1 2 9 31 (-300))]
    [SStr "Open"; SStr "Close"]
    (fun _ _ => SFloat (float_of_Z 10)).

(** The info of a ticker that has a mean target price and a recommendation. *)
Definition sample_info : dict :=
  [("symbol", PStr "AAPL"); ("targetMeanPrice", PFloat (float_of_Z 200));
   ("recommendationKey", PStr "buy")].

Definition sample_news : json :=
  JArr [JObj [("title", JStr "Results"); ("publisher", JStr "Wire")]].

(** An environment whose decoder reads every text as [payload], and whose
    provider answers: the search with [sample_news], [news] with the same,
    [info] with [info], the cash flow tables with [income_table]. *)
Definition answering (payload info : pyval) : Env :=
  mkEnv (fun _ => Ok payload)
        (fun _ _ => Ok (mkResponse (Ok tt) (Ok (of_json sample_news))))
        (fun _ => Ok tt)
        (fun _ _ _ _ => Ok (Some bars_table))
        (fun _ attr => if String.eqb attr "news" then Ok (of_json sample_news) else Ok info)
        (fun _ attr =>
           if String.eqb attr "cashflow" then Ok (Some income_table)
           else if String.eqb attr "quarterly_cashflow" then Ok (Some income_table)
           else Ok None).

(** A response with an error status, and an environment whose decoder reads
    every text as a search request and whose search gets that response. *)
Definition not_found : Response :=
  mkResponse (Raise (mkExn "HTTPError" "404 Client Error: Not Found for url"))
             (Ok PNone).

Definition rejecting_env : Env :=
  mkEnv (fun _ => Ok (PDict [("action", PStr "search"); ("query", PStr "apple")]))
        (fun _ _ => Ok not_found)
        (fun _ => Ok tt)
        (fun _ _ _ _ => Ok None)
        (fun _ _ => Ok PNone)
        (fun _ _ => Ok None).

(** An environment in which no ticker can be built. *)
Definition no_ticker_env : Env :=
  mkEnv (fun _ => Ok (PDict []))
        (fun _ _ => Raise (mkExn "ConnectionError" "Max retries exceeded"))
        (fun _ => Raise (AttributeError "'NoneType' object has no attribute 'upper'"))
        (fun _ _ _ _ => Ok None)
        (fun _ _ => Ok PNone)
        (fun _ _ => Ok None).

(* ================================================================== *)
(** ** Generic facts: loops, dictionaries, rows *)

Lemma mapM_length {A B} (f : A -> result B) (l : list A) (bs : list B) :
  mapM f l = Ok bs -> List.length bs = List.length l.
Proof.
  revert bs; induction l as [|a l IH]; intros bs H; simpl in H.
  - inversion H; reflexivity.
  - destruct (f a) as [b|e]; simpl in H; [|discriminate].
    destruct (mapM f l) as [bs'|e]; simpl in H; [|discriminate].
    inversion H; subst; simpl; f_equal; apply IH; reflexivity.
Qed.

Lemma mapM_nth_error {A B} (f : A -> result B) (l : list A) (bs : list B) :
  mapM f l = Ok bs ->
  forall i a, nth_error l i = Some a ->
  exists b, nth_error bs i = Some b /\ f a = Ok b.
Proof.
  revert bs; induction l as [|x l IH]; intros bs H i a Hi.
  - destruct i; discriminate.
  - simpl in H. destruct (f x) as [b|e] eqn:Hx; simpl in H; [|discriminate].
    destruct (mapM f l) as [bs'|e] eqn:Hl; simpl in H; [|discriminate].
    inversion H; subst. destruct i as [|i]; simpl in *.
    + inversion Hi; subst. exists b; split; [reflexivity|assumption].
    + apply (IH bs' eq_refl i a Hi).
Qed.

Lemma mapM_nth_error_inv {A B} (f : A -> result B) (l : list A) (bs : list B) :
  mapM f l = Ok bs ->
  forall i b, nth_error bs i = Some b ->
  exists a, nth_error l i = Some a /\ f a = Ok b.
Proof.
  revert bs; induction l as [|x l IH]; intros bs H i b Hi.
  - simpl in H; inversion H; subst. destruct i; discriminate.
  - simpl in H. destruct (f x) as [b0|e] eqn:Hx; simpl in H; [|discriminate].
    destruct (mapM f l) as [bs'|e] eqn:Hl; simpl in H; [|discriminate].
    inversion H; subst. destruct i as [|i]; simpl in *.
    + inversion Hi; subst. exists x; split; [reflexivity|assumption].
    + apply (IH bs' eq_refl i b Hi).
Qed.

Lemma mapM_total {A B} (f : A -> result B) (l : list A) :
  (forall a, In a l -> exists b, f a = Ok b) -> exists bs, mapM f l = Ok bs.
Proof.
  induction l as [|x l IH]; intros H.
  - exists []; reflexivity.
  - destruct (H x (or_introl eq_refl)) as [b Hb].
    destruct IH as [bs Hbs]; [intros a Ha; apply H; right; exact Ha|].
    exists (b :: bs); simpl; rewrite Hb; simpl.
    change (match mapM f l with Ok a => Ok (b :: a) | Raise e => Raise e end = Ok (b :: bs)).
    rewrite Hbs; reflexivity.
Qed.

Lemma dict_get_set (d : dict) (a k : string) (x : pyval) :
  dict_get (dict_set d a x) k = if String.eqb a k then Some x else dict_get d k.
Proof.
  induction d as [|[k' v'] d IH]; simpl.
  - reflexivity.
  - destruct (String.eqb k' a) eqn:Ha; simpl.
    + apply String.eqb_eq in Ha; subst k'.
      destruct (String.eqb a k); reflexivity.
    + rewrite IH. destruct (String.eqb k' k) eqn:Hk; [|reflexivity].
      apply String.eqb_eq in Hk. rewrite Hk, String.eqb_sym in Ha.
      rewrite Ha; reflexivity.
Qed.

Lemma combine_seq_nth_error {A} (l : list A) (s i : nat) :
  nth_error (combine (seq s (List.length l)) l) i =
  option_map (fun a => (s + i, a)) (nth_error l i).
Proof.
  revert s i; induction l as [|a l IH]; intros s i; simpl.
  - destruct i; reflexivity.
  - destruct i as [|i]; simpl.
    + rewrite Nat.add_0_r; reflexivity.
    + rewrite IH. rewrite Nat.add_succ_r; reflexivity.
Qed.

Lemma enumerate_nth_error {A} (l : list A) (i : nat) :
  nth_error (enumerate l) i = option_map (fun a => (i, a)) (nth_error l i).
Proof. unfold enumerate; apply combine_seq_nth_error. Qed.

Lemma enumerate_length {A} (l : list A) : List.length (enumerate l) = List.length l.
Proof.
  unfold enumerate. rewrite length_combine, length_seq. apply Nat.min_id.
Qed.

Lemma enumerate_map {A C} (h : A -> C) (l : list A) :
  enumerate (map h l) = map (fun '(i, a) => (i, h a)) (enumerate l).
Proof.
  unfold enumerate. rewrite length_map. generalize 0.
  induction l as [|a l IH]; intros s; simpl; [reflexivity|].
  f_equal. apply IH.
Qed.

Lemma enumerate_In {A} (l : list A) (i : nat) (a : A) :
  In (i, a) (enumerate l) -> nth_error l i = Some a.
Proof.
  intros H. apply In_nth_error in H. destruct H as [n Hn].
  rewrite enumerate_nth_error in Hn.
  destruct (nth_error l n) eqn:E; simpl in Hn; [|discriminate].
  inversion Hn; subst; assumption.
Qed.

Lemma iterrows_nth_error (df : DataFrame) (i : nat) :
  nth_error (iterrows df) i =
  option_map (fun idx => (idx, row_of df i)) (nth_error (index df) i).
Proof.
  unfold iterrows. rewrite nth_error_map, enumerate_nth_error.
  destruct (nth_error (index df) i); reflexivity.
Qed.

Lemma iterrows_length (df : DataFrame) :
  List.length (iterrows df) = List.length (index df).
Proof. unfold iterrows. rewrite length_map. apply enumerate_length. Qed.


Lemma row_of_nth_In (df : DataFrame) (i j : nat) (key : scalar) :
  nth_error (columns df) j = Some key -> In (key, cell df i j) (row_of df i).
Proof.
  intros H. unfold row_of. apply in_map_iff. exists (j, key). split; [reflexivity|].
  apply nth_error_In with (n := j). rewrite enumerate_nth_error, H. reflexivity.
Qed.

(* ================================================================== *)
(** ** Rounding an integer never gives NaN *)

Lemma iter_pos_invariant {A} (P : A -> Prop) (f : A -> A) :
  (forall x, P x -> P (f x)) -> forall n x, P x -> P (iter_pos f n x).
Proof.
  intros Hf. induction n as [n IH|n IH|]; intros x Hx; simpl.
  - apply IH, IH, Hf, Hx.
  - apply IH, IH, Hx.
  - apply Hf, Hx.
Qed.

Lemma shr_1_nonneg (mrs : shr_record) :
  (0 <= shr_m mrs)%Z -> (0 <= shr_m (shr_1 mrs))%Z.
Proof.
  destruct mrs as [m r s0]. simpl. intros H.
  destruct m as [|[p|p|]|p]; simpl; lia.
Qed.

Lemma shr_fexp_nonneg (m e : Z) (l : location) :
  (0 <= m)%Z -> (0 <= shr_m (fst (shr_fexp prec emax m e l)))%Z.
Proof.
  intros H. unfold shr_fexp, shr.
  assert (H0 : (0 <= shr_m (shr_record_of_loc m l))%Z)
    by (destruct l as [|[]]; exact H).
  destruct (fexp prec emax (Zdigits2 m + e) - e)%Z; simpl; try exact H0.
  apply (iter_pos_invariant (fun mrs => (0 <= shr_m mrs)%Z)); [apply shr_1_nonneg | exact H0].
Qed.

Lemma binary_round_aux_not_nan (sx : bool) (mx ex : Z) (lx : location) :
  (0 <= mx)%Z -> is_nan (binary_round_aux prec emax sx mx ex lx) = false.
Proof.
  intros H. unfold binary_round_aux.
  pose proof (shr_fexp_nonneg mx ex lx H) as H1.
  destruct (shr_fexp prec emax mx ex lx) as [mrs' e']. simpl in H1.
  assert (H2 : (0 <= round_nearest_even (shr_m mrs') (loc_of_shr_record mrs'))%Z).
  { unfold round_nearest_even. destruct (loc_of_shr_record mrs') as [|[]]; try lia.
    destruct (Z.even (shr_m mrs')); lia. }
  pose proof (shr_fexp_nonneg _ e' loc_Exact H2) as H3.
  destruct (shr_fexp prec emax _ e' loc_Exact) as [mrs'' e'']. simpl in H3.
  destruct (shr_m mrs'') as [|m|m]; [reflexivity| |lia].
  destruct (e'' <=? emax - prec)%Z; reflexivity.
Qed.

Lemma float_of_Z_not_nan (z : Z) : is_nan (float_of_Z z) = false.
Proof.
  unfold float_of_Z, binary_normalize, binary_round.
  destruct z as [|m|m]; [reflexivity| |];
    destruct (shl_align m 0 _) as [mz ez]; apply binary_round_aux_not_nan; lia.
Qed.

(* ================================================================== *)
(** ** The statement normalizer *)

Section StatementFacts.

Context {B : Builtins}.

Lemma record_step_eq (rec : dict) (key val : scalar) :
  record_step rec (key, val) =
  if pd_isna val then Ok rec
  else v <- coerce val ;; Ok (dict_set rec (py_str key) v).
Proof.
  unfold record_step, coerce.
  destruct (pd_isna val); [reflexivity|].
  destruct (isinstance_float val || isinstance_int val); [|reflexivity].
  destruct (py_float val); reflexivity.
Qed.

(** Every field of a record was there at the start or was written from a
    line item that is not missing. *)
Lemma foldM_record_step_origin (row : Series) :
  forall rec0 rec, foldM record_step rec0 row = Ok rec ->
  forall k v, dict_get rec k = Some v ->
    dict_get rec0 k = Some v \/
    exists key val, In (key, val) row /\ py_str key = k /\
                    pd_isna val = false /\ coerce val = Ok v.
Proof.
  induction row as [|[key val] row IH]; intros rec0 rec H k v Hk.
  - simpl in H; inversion H; subst; left; assumption.
  - cbn [foldM] in H. rewrite record_step_eq in H.
    destruct (pd_isna val) eqn:Hna; simpl in H.
    + destruct (IH _ _ H k v Hk) as [L|(key' & val' & Hin & R)]; [left; assumption|].
      right; exists key', val'; split; [right; assumption | assumption].
    + destruct (coerce val) as [x|e] eqn:Hc; simpl in H; [|discriminate].
      destruct (IH _ _ H k v Hk) as [L|(key' & val' & Hin & R)].
      * rewrite dict_get_set in L.
        destruct (String.eqb (py_str key) k) eqn:E; [|left; assumption].
        inversion L; subst. apply String.eqb_eq in E.
        right; exists key, val; repeat split; try assumption. left; reflexivity.
      * right; exists key', val'; split; [right; assumption | assumption].
Qed.

(** A key that no present line item is labelled with keeps its value. *)
Lemma foldM_record_step_untouched (row : Series) (k : string) :
  (forall key val, In (key, val) row -> py_str key = k -> pd_isna val = true) ->
  forall rec0 rec, foldM record_step rec0 row = Ok rec ->
  dict_get rec k = dict_get rec0 k.
Proof.
  induction row as [|[key val] row IH]; intros Hrow rec0 rec H.
  - simpl in H; inversion H; reflexivity.
  - cbn [foldM] in H. rewrite record_step_eq in H.
    assert (Hrow' : forall key val, In (key, val) row -> py_str key = k -> pd_isna val = true)
      by (intros; eapply Hrow; [right; eassumption | assumption]).
    destruct (pd_isna val) eqn:Hna; simpl in H.
    + apply (IH Hrow' _ _ H).
    + destruct (coerce val) as [x|e] eqn:Hc; simpl in H; [|discriminate].
      rewrite (IH Hrow' _ _ H), dict_get_set.
      destruct (String.eqb (py_str key) k) eqn:E; [|reflexivity].
      apply String.eqb_eq in E.
      rewrite (Hrow key val (or_introl eq_refl) E) in Hna; discriminate.
Qed.

(** A key that is set stays set. *)
Lemma foldM_record_step_keeps (row : Series) (k : string) :
  forall rec0 rec, foldM record_step rec0 row = Ok rec ->
  dict_get rec0 k <> None -> dict_get rec k <> None.
Proof.
  induction row as [|[key val] row IH]; intros rec0 rec H Hk.
  - simpl in H; inversion H; subst; assumption.
  - cbn [foldM] in H. rewrite record_step_eq in H.
    destruct (pd_isna val); simpl in H.
    + apply (IH _ _ H Hk).
    + destruct (coerce val) as [x|e]; simpl in H; [|discriminate].
      apply (IH _ _ H). rewrite dict_get_set.
      destruct (String.eqb (py_str key) k); [discriminate | assumption].
Qed.

(** A present value stays present when it is coerced. *)
Lemma coerce_present (val : scalar) (v : pyval) :
  pd_isna val = false -> coerce val = Ok v -> present v.
Proof.
  unfold coerce, present. intros Hna Hc.
  destruct val; simpl in Hc; inversion Hc; subst; try exact Hna; try reflexivity.
  - destruct b; reflexivity.
  - unfold float_of_int in Hc. clear H0.
    destruct (float_of_Z z) eqn:Ez; simpl in Hc; inversion Hc; subst;
      try reflexivity.
    pose proof (float_of_Z_not_nan z) as Hn. rewrite Ez in Hn. discriminate Hn.
Qed.

Lemma period_row_In (df : DataFrame) (i : nat) (key val : scalar) :
  In (key, val) (period_row df i) ->
  exists j, nth_error (index df) j = Some key /\ val = cell df j i.
Proof.
  unfold period_row. intros H. apply in_map_iff in H.
  destruct H as [[j l] [Heq Hin]]. inversion Heq; subst.
  exists j; split; [apply enumerate_In; assumption | reflexivity].
Qed.

(** The records of a table that is not empty: the [i]-th one is the record
    of the period in column [i]. *)
Lemma df_to_records_unfold (df : DataFrame) :
  DataFrame_empty df = false ->
  df_to_records (Some df) =
  mapM (fun '(idx, row) => period_record idx row)
       (map (fun '(i, col) => (SStr (relabel col), period_row df i))
            (enumerate (columns df))).
Proof.
  intros Hne. unfold df_to_records. rewrite Hne.
  f_equal. unfold iterrows, transpose, set_columns, period_row; cbn [index columns cell].
  rewrite map_map, enumerate_map, map_map.
  apply map_ext. intros [i col]; reflexivity.
Qed.

End StatementFacts.

(* ------------------------------------------------------------------ *)
(** *** Claims on the statement normalizer *)

Section StatementClaims.

Context {B : Builtins}.

Lemma df_to_records_nth (df : DataFrame) (recs : list dict) (i : nat) (rec : dict) :
  df_to_records (Some df) = Ok recs ->
  nth_error recs i = Some rec ->
  exists col, nth_error (columns df) i = Some col /\
    period_record (SStr (relabel col)) (period_row df i) = Ok rec.
Proof.
  intros H Hi. destruct (DataFrame_empty df) eqn:Hne.
  - unfold df_to_records in H. rewrite Hne in H. inversion H; subst.
    destruct i; discriminate.
  - rewrite (df_to_records_unfold df Hne) in H.
    destruct (mapM_nth_error_inv _ _ _ H i rec Hi) as [[idx row] [Ha Hf]].
    rewrite nth_error_map, enumerate_nth_error in Ha.
    destruct (nth_error (columns df) i) as [col|]; simpl in Ha; [|discriminate].
    inversion Ha; subst. exists col; split; [reflexivity | exact Hf].
Qed.

Lemma df_to_records_period (df : DataFrame) (recs : list dict) (i : nat) (col : scalar) :
  DataFrame_empty df = false ->
  df_to_records (Some df) = Ok recs ->
  nth_error (columns df) i = Some col ->
  exists rec, nth_error recs i = Some rec /\
    period_record (SStr (relabel col)) (period_row df i) = Ok rec.
Proof.
  intros Hne H Hi. rewrite (df_to_records_unfold df Hne) in H.
  apply (mapM_nth_error _ _ _ H i (SStr (relabel col), period_row df i)).
  rewrite nth_error_map, enumerate_nth_error, Hi. reflexivity.
Qed.

Lemma df_to_records_length (df : DataFrame) (recs : list dict) :
  DataFrame_empty df = false ->
  df_to_records (Some df) = Ok recs ->
  List.length recs = List.length (columns df).
Proof.
  intros Hne H. rewrite (df_to_records_unfold df Hne) in H.
  apply mapM_length in H. rewrite H, length_map. apply enumerate_length.
Qed.

(** C1, as amended.  In every record the statement normalizer emits for a
    period: a field other than [report_period] was written from a line item
    of that period that is not missing, with its coerced value, so a line
    item whose cells under a label are all missing leaves no field, and no
    field holds a missing value; the field [report_period] is always there,
    and it is the period's label, a string, whenever no present line item of
    the period is itself labelled [report_period]. *)
Theorem statement_records_fields (df : DataFrame) (recs : list dict) (i : nat) (rec : dict) :
  df_to_records (Some df) = Ok recs ->
  nth_error recs i = Some rec ->
  exists col, nth_error (columns df) i = Some col /\
    (exists v, dict_get rec "report_period" = Some v) /\
    ((forall j key, nth_error (index df) j = Some key ->
        py_str key = "report_period" -> pd_isna (cell df j i) = true) ->
     dict_get rec "report_period" = Some (PStr (relabel col))) /\
    (forall k v, k <> "report_period" -> dict_get rec k = Some v ->
       exists j key, nth_error (index df) j = Some key /\ py_str key = k /\
         pd_isna (cell df j i) = false /\ coerce (cell df j i) = Ok v) /\
    (forall j key, nth_error (index df) j = Some key ->
       py_str key <> "report_period" ->
       (forall j' key', nth_error (index df) j' = Some key' ->
          py_str key' = py_str key -> pd_isna (cell df j' i) = true) ->
       dict_get rec (py_str key) = None) /\
    (forall k v, dict_get rec k = Some v -> present v).
Proof.
  intros H Hi. destruct (df_to_records_nth df recs i rec H Hi) as [col [Hcol Hrec]].
  exists col. split; [exact Hcol|]. unfold period_record in Hrec.
  cbn [py_str] in Hrec.
  assert (Hrow : forall k,
             (forall j key, nth_error (index df) j = Some key ->
                py_str key = k -> pd_isna (cell df j i) = true) ->
             forall key val, In (key, val) (period_row df i) ->
                py_str key = k -> pd_isna val = true).
  { intros k Hk key val Hin Hs. apply period_row_In in Hin.
    destruct Hin as [j [Hj ->]]. apply (Hk j key Hj Hs). }
  split; [|split; [|split; [|split]]].
  - destruct (dict_get rec "report_period") as [v|] eqn:E; [exists v; reflexivity|].
    exfalso. revert E. apply (foldM_record_step_keeps _ _ _ _ Hrec).
    simpl; discriminate.
  - intros Hk.
    rewrite (foldM_record_step_untouched _ _ (Hrow _ Hk) _ _ Hrec). reflexivity.
  - intros k v Hne Hget.
    destruct (foldM_record_step_origin _ _ _ Hrec k v Hget)
      as [L|(key & val & Hin & Hs & Hna & Hc)].
    + cbn [dict_get] in L.
      destruct (String.eqb "report_period" k) eqn:E; [|discriminate].
      apply String.eqb_eq in E. exfalso; apply Hne; symmetry; exact E.
    + apply period_row_In in Hin. destruct Hin as [j [Hj ->]].
      exists j, key; repeat split; assumption.
  - intros j key Hj Hne Hall.
    rewrite (foldM_record_step_untouched _ _ (Hrow _ Hall) _ _ Hrec).
    cbn [dict_get].
    destruct (String.eqb "report_period" (py_str key)) eqn:E; [|reflexivity].
    apply String.eqb_eq in E. exfalso; apply Hne; symmetry; exact E.
  - intros k v Hget.
    destruct (foldM_record_step_origin _ _ _ Hrec k v Hget)
      as [L|(key & val & _ & _ & Hna & Hc)].
    + cbn [dict_get] in L.
      destruct (String.eqb "report_period" k); [|discriminate].
      inversion L; subst. reflexivity.
    + apply (coerce_present val v Hna Hc).
Qed.

(** C7.  A table with one line item and one period, whose cell is present
    and coerces to [v], gives exactly one record: the period's label and,
    under the line item's label, [v]. *)
Theorem single_cell_record (df : DataFrame) (key col : scalar) (v : pyval) :
  index df = [key] ->
  columns df = [col] ->
  pd_isna (cell df 0 0) = false ->
  coerce (cell df 0 0) = Ok v ->
  df_to_records (Some df) =
    Ok [dict_set [("report_period", PStr (relabel col))] (py_str key) v] /\
  (py_str key <> "report_period" ->
   df_to_records (Some df) =
     Ok [[("report_period", PStr (relabel col)); (py_str key, v)]]).
Proof.
  intros Hidx Hcols Hna Hc.
  assert (Hne : DataFrame_empty df = false)
    by (unfold DataFrame_empty; rewrite Hidx, Hcols; reflexivity).
  assert (Hmain : df_to_records (Some df) =
            Ok [dict_set [("report_period", PStr (relabel col))] (py_str key) v]).
  { rewrite (df_to_records_unfold df Hne). unfold period_row.
    rewrite Hidx, Hcols. cbn [enumerate List.length seq combine map mapM].
    unfold period_record. cbn [foldM py_str]. rewrite record_step_eq, Hna, Hc.
    reflexivity. }
  split; [exact Hmain|].
  intros Hne'. rewrite Hmain. cbn [dict_set].
  destruct (String.eqb "report_period" (py_str key)) eqn:E; [|reflexivity].
  apply String.eqb_eq in E. exfalso; apply Hne'; symmetry; exact E.
Qed.

End StatementClaims.

(** The integer 42 comes out as the float 42.0, which is [42 * 2^47 * 2^-47]. *)
Lemma single_cell_record_witness :
  index revenue_table = [SStr "Total Revenue"] /\
  columns revenue_table = [STimestamp (midnight 2023 12 31)] /\
  pd_isna (cell revenue_table 0 0) = false /\
  coerce (B := sample_builtins) (cell revenue_table 0 0)
    = Ok (PFloat (S754_finite false (42 * 2 ^ 47) (-47))) /\
  df_to_records (B := sample_builtins) (Some revenue_table) =
    Ok [[("report_period", PStr "2023-12-31");
         ("Total Revenue", PFloat (S754_finite false (42 * 2 ^ 47) (-47)))]].
Proof.
  do 4 (split; [reflexivity|]).
  apply (proj2 (single_cell_record (B := sample_builtins) revenue_table
                  (SStr "Total Revenue") (STimestamp (midnight 2023 12 31))
                  (PFloat (S754_finite false (42 * 2 ^ 47) (-47)))
                  eq_refl eq_refl eq_refl eq_refl)).
  intros H; discriminate H.
Defined.

Lemma statement_records_fields_witness :
  df_to_records (B := sample_builtins) (Some income_table) =
    Ok [[("report_period", PStr "2023-12-31");
         ("Total Revenue", PFloat (float_of_Z 100)); ("Net Income", PFloat (float_of_Z 7))];
        [("report_period", PStr "2022-12-31"); ("Net Income", PFloat (float_of_Z 5))]] /\
  nth_error [[("report_period", PStr "2023-12-31");
              ("Total Revenue", PFloat (float_of_Z 100)); ("Net Income", PFloat (float_of_Z 7))];
             [("report_period", PStr "2022-12-31"); ("Net Income", PFloat (float_of_Z 5))]] 1
    = Some [("report_period", PStr "2022-12-31"); ("Net Income", PFloat (float_of_Z 5))] /\
  dict_get [("report_period", PStr "2022-12-31"); ("Net Income", PFloat (float_of_Z 5))]
           "Total Revenue" = None.
Proof.
  split; [reflexivity|]. split; [reflexivity|].
  destruct (statement_records_fields (B := sample_builtins) income_table _ 1 _
              eq_refl eq_refl) as [col [_ [_ [_ [_ [Hnone _]]]]]].
  apply (Hnone 0 (SStr "Total Revenue") eq_refl).
  - intros H; discriminate H.
  - intros [|[|j']] key' Hj Hs.
    + reflexivity.
    + inversion Hj; subst. discriminate Hs.
    + destruct j'; discriminate Hj.
Defined.

(** C1 as stated fails: a line item labelled [report_period] overwrites the
    period's label, and the field then holds the float 1.0. *)
Lemma report_period_overwritten :
  df_to_records (B := sample_builtins) (Some overwritten_table) =
    Ok [[("report_period", PFloat (S754_finite false (2 ^ 52) (-52)))]] /\
  forall s, dict_get [("report_period", PFloat (S754_finite false (2 ^ 52) (-52)))]
                     "report_period" <> Some (PStr s).
Proof. split; [reflexivity | intros s H; discriminate H]. Qed.

(* ================================================================== *)
(** ** The history normalizer *)

Lemma like_app (p1 p2 s1 s2 : string) :
  like p1 s1 = true -> like p2 s2 = true -> like (p1 ++ p2) (s1 ++ s2) = true.
Proof.
  revert s1; induction p1 as [|p p1 IH]; intros [|c s1] H1 H2; simpl in *;
    try discriminate; [exact H2|].
  apply andb_true_iff in H1. destruct H1 as [Hc H1].
  rewrite Hc. apply IH; assumption.
Qed.

Lemma like_starts_app (p1 p2 s1 s2 : string) :
  like p1 s1 = true -> starts_like p2 s2 = true ->
  starts_like (p1 ++ p2) (s1 ++ s2) = true.
Proof.
  revert s1; induction p1 as [|p p1 IH]; intros [|c s1] H1 H2; simpl in *;
    try discriminate; [exact H2|].
  apply andb_true_iff in H1. destruct H1 as [Hc H1].
  rewrite Hc. apply IH; assumption.
Qed.

Lemma starts_like_app (pat s t : string) :
  starts_like pat s = true -> starts_like pat (s ++ t) = true.
Proof.
  revert s; induction pat as [|p pat IH]; intros s H; [destruct s; reflexivity|].
  destruct s as [|c s]; simpl in *; [discriminate|].
  apply andb_true_iff in H. destruct H as [Hc H].
  rewrite Hc. apply IH; assumption.
Qed.

Lemma pad_2_digits (n : nat) : n < 100 -> like "dd" (pad 2 n) = true.
Proof.
  intros H.
  assert (Hall : forallb (fun n => like "dd" (pad 2 n)) (seq 0 100) = true)
    by (vm_compute; reflexivity).
  apply (proj1 (forallb_forall _ _) Hall n). apply in_seq. lia.
Qed.

Lemma pad_4_digits (n : nat) : n < 100 * 100 -> like "dddd" (pad 4 n) = true.
Proof.
  intros H.
  assert (Hall : forallb (fun n => like "dddd" (pad 4 n)) (seq 0 (100 * 100)) = true)
    by (vm_compute; reflexivity).
  apply (proj1 (forallb_forall _ _) Hall n). apply in_seq. lia.
Qed.

(** The calendar date of [isoformat] reads [YYYY-MM-DD]. *)
Lemma date_isoformat_like (d : date) :
  date_in_range d -> like "dddd-dd-dd" (date_isoformat d) = true.
Proof.
  intros (Hy & Hm & Hd). unfold date_isoformat.
  change "dddd-dd-dd" with ("dddd" ++ "-" ++ "dd" ++ "-" ++ "dd")%string.
  repeat first [ apply like_app | apply pad_4_digits | apply pad_2_digits
               | reflexivity | assumption ].
Qed.

(** The text of [isoformat] starts with [YYYY-MM-DDTHH:MM:SS]. *)
Lemma datetime_isoformat_like (t : datetime) :
  date_in_range (dt_date t) -> time_in_range t ->
  starts_like "dddd-dd-ddTdd:dd:dd" (datetime_isoformat "T" t) = true.
Proof.
  intros Hd (Hh & Hm & Hs). unfold datetime_isoformat, format_time.
  change "dddd-dd-ddTdd:dd:dd"
    with ("dddd-dd-dd" ++ "T" ++ "dd" ++ ":" ++ "dd" ++ ":" ++ "dd" ++ "")%string.
  apply like_starts_app; [apply date_isoformat_like; exact Hd|].
  apply like_starts_app; [reflexivity|].
  apply starts_like_app.
  repeat first [ apply like_starts_app | apply pad_2_digits
               | reflexivity | assumption ].
Qed.

Section HistoryFacts.

Context {B : Builtins}.

Lemma row_shift (c : nat -> scalar) (l : list scalar) (s : nat) :
  map (fun '(j, col) => (col, c j)) (combine (seq (S s) (List.length l)) l) =
  map (fun '(j, col) => (col, c (S j))) (combine (seq s (List.length l)) l).
Proof.
  revert s; induction l as [|a l IH]; intros s; simpl; [reflexivity|].
  f_equal. apply IH.
Qed.

Lemma map_combine_seq_fst {A C} (g : nat -> C) (l : list A) (s : nat) :
  map (fun p : nat * A => g (fst p)) (combine (seq s (List.length l)) l) =
  map g (seq s (List.length l)).
Proof.
  revert s; induction l as [|a l IH]; intros s; simpl; [reflexivity|].
  f_equal. apply IH.
Qed.

Lemma reset_index_row (df df' : DataFrame) (i : nat) :
  reset_index df = Ok df' -> row_of df' i = history_row df i.
Proof.
  unfold reset_index. destruct (has_label (index_label df) (columns df)); [discriminate|].
  intros H; inversion H; subst; clear H.
  unfold row_of, history_row, enumerate; cbn [columns cell List.length seq combine map].
  f_equal. apply (row_shift (fun j => match j with 0 => nth i (index df) SNone
                                             | S j' => cell df i j' end)).
Qed.

Lemma reset_index_length (df df' : DataFrame) :
  reset_index df = Ok df' -> List.length (index df') = List.length (index df).
Proof.
  unfold reset_index. destruct (has_label (index_label df) (columns df)); [discriminate|].
  intros H; inversion H; subst; cbn [index]. rewrite length_map, length_seq. reflexivity.
Qed.

(** The records of a table that is not empty: one bar per row. *)
Lemma normalize_history_unfold (df : DataFrame) :
  DataFrame_empty df = false ->
  has_label (index_label df) (columns df) = false ->
  normalize_history (Some df) =
  mapM bar_record (map (history_row df) (seq 0 (List.length (index df)))).
Proof.
  intros Hne Hlab. unfold normalize_history. rewrite Hne.
  destruct (reset_index df) as [df'|e] eqn:Hr.
  2:{ unfold reset_index in Hr. rewrite Hlab in Hr. discriminate. }
  cbn [rbind].
  assert (Hrows : map (fun p => snd p) (iterrows df')
                  = map (history_row df) (seq 0 (List.length (index df)))).
  { unfold iterrows. rewrite map_map.
    transitivity (map (fun p : nat * scalar => row_of df' (fst p)) (enumerate (index df'))).
    - apply map_ext. intros [k idx]; reflexivity.
    - unfold enumerate. rewrite map_combine_seq_fst, (reset_index_length _ _ Hr).
      apply map_ext. intros k. apply (reset_index_row _ _ _ Hr). }
  rewrite <- Hrows. generalize (iterrows df'). intros l.
  induction l as [|[idx row] l IH]; simpl; [reflexivity|].
  destruct (bar_record row); simpl; [|reflexivity].
  change (match mapM (fun '(_, row0) => bar_record row0) l with
          | Ok a0 => Ok (a :: a0) | Raise e => Raise e end =
          match mapM bar_record (map (fun p => snd p) l) with
          | Ok a0 => Ok (a :: a0) | Raise e => Raise e end).
  rewrite IH. reflexivity.
Qed.

Lemma label_is_true (name : string) (l : scalar) :
  label_is name l = true -> l = SStr name.
Proof.
  destruct l; simpl; try discriminate. intros H. apply String.eqb_eq in H. subst; reflexivity.
Qed.


Lemma Series_get_absent (row : Series) (name : string) :
  existsb (label_is name) (map fst row) = false -> Series_get row name = SNone.
Proof.
  induction row as [|[l v] row IH]; simpl; [reflexivity|].
  destruct (label_is name l); simpl; [discriminate | exact IH].
Qed.

Lemma Series_get_column (c : nat -> scalar) (labels : list scalar) (name : string) :
  NoDup labels ->
  forall s j, nth_error labels j = Some (SStr name) ->
  Series_get (map (fun '(j, col) => (col, c j))
                  (combine (seq s (List.length labels)) labels)) name = c (s + j).
Proof.
  induction 1 as [|a l Hnotin Hnd IH]; intros s j Hj.
  - destruct j; discriminate.
  - cbn [List.length seq combine map Series_get].
    destruct (label_is name a) eqn:E.
    + apply label_is_true in E. subst a. destruct j as [|j].
      * rewrite Nat.add_0_r; reflexivity.
      * exfalso. apply Hnotin. simpl in Hj. apply (nth_error_In _ _ Hj).
    + destruct j as [|j].
      * inversion Hj; subst. simpl in E. rewrite String.eqb_refl in E. discriminate.
      * rewrite (IH (S s) j Hj). rewrite Nat.add_succ_r. reflexivity.
Qed.

Lemma row_of_labels (df : DataFrame) (i : nat) : map fst (row_of df i) = columns df.
Proof.
  unfold row_of, enumerate. rewrite map_map. generalize 0.
  induction (columns df) as [|a l IH]; intros s; simpl; [reflexivity|].
  f_equal. apply IH.
Qed.

(** Under distinct labels, a price column is read at its cell. *)
Lemma history_row_cell (df : DataFrame) (i j : nat) (name : string) :
  NoDup (SStr (index_label df) :: columns df) ->
  nth_error (columns df) j = Some (SStr name) ->
  Series_get (history_row df i) name = cell df i j.
Proof.
  intros Hnd Hj. inversion Hnd as [|a l Hnotin Hnd']; subst.
  unfold history_row. cbn [Series_get].
  destruct (label_is name (SStr (index_label df))) eqn:E.
  - apply label_is_true in E. exfalso. apply Hnotin. rewrite E.
    apply (nth_error_In _ _ Hj).
  - unfold row_of, enumerate.
    apply (Series_get_column (fun j => cell df i j) (columns df) name Hnd' 0 j Hj).
Qed.

(** A column that the table does not have reads as [None]. *)
Lemma history_row_absent (df : DataFrame) (i : nat) (name : string) :
  index_label df <> name ->
  has_label name (columns df) = false ->
  Series_get (history_row df i) name = SNone.
Proof.
  intros Hne Habs. unfold history_row. cbn [Series_get label_is].
  destruct (String.eqb (index_label df) name) eqn:E.
  - apply String.eqb_eq in E. contradiction.
  - apply Series_get_absent. rewrite row_of_labels. exact Habs.
Qed.

Lemma bar_date_eq (row : Series) :
  bar_date row = Ok (date_field (date_value_of row)).
Proof.
  unfold bar_date. fold (date_value_of row).
  destruct (date_value_of row); reflexivity.
Qed.

Lemma float_or_None_inv (x : scalar) (v : pyval) :
  float_or_None x = Ok v ->
  (x = SNone /\ v = PNone) \/ (x <> SNone /\ exists f, py_float x = Ok f /\ v = PFloat f).
Proof.
  unfold float_or_None. destruct x; intros H;
    try (left; inversion H; split; reflexivity);
    right; (split; [discriminate|]);
    match type of H with
    | (_ <- ?m ;; _) = _ => destruct m as [x|e] eqn:Hf; simpl in H; [|discriminate]
    end; inversion H; exists x; split; reflexivity.
Qed.


Lemma bar_record_inv (row : Series) (rec : dict) :
  bar_record row = Ok rec ->
  exists o h l c v,
    rec = [("date", PScalar (date_field (date_value_of row))); ("open", o);
           ("high", h); ("low", l); ("close", c); ("volume", v)] /\
    float_or_None (Series_get row "Open") = Ok o /\
    float_or_None (Series_get row "High") = Ok h /\
    float_or_None (Series_get row "Low") = Ok l /\
    float_or_None (Series_get row "Close") = Ok c /\
    float_or_None (Series_get row "Volume") = Ok v.
Proof.
  unfold bar_record. rewrite bar_date_eq. cbn [rbind].
  destruct (float_or_None (Series_get row "Open")) as [o|]; [|discriminate].
  destruct (float_or_None (Series_get row "High")) as [h|]; [|discriminate].
  destruct (float_or_None (Series_get row "Low")) as [l|]; [|discriminate].
  destruct (float_or_None (Series_get row "Close")) as [c|]; [|discriminate].
  destruct (float_or_None (Series_get row "Volume")) as [v|]; [|discriminate].
  cbn [rbind]. intros H; inversion H; subst.
  exists o, h, l, c, v. repeat split; reflexivity.
Qed.

(** A price field of a bar is what [float_or_None] makes of the cell read
    under the column. *)
Lemma bar_record_field (row : Series) (rec : dict) (name field : string) :
  bar_record row = Ok rec ->
  In (name, field) price_fields ->
  exists v, dict_get rec field = Some v /\ float_or_None (Series_get row name) = Ok v.
Proof.
  intros H Hin. destruct (bar_record_inv _ _ H) as (o & h & l & c & v & -> & Ho & Hh & Hl & Hc & Hv).
  simpl in Hin.
  destruct Hin as [E|[E|[E|[E|[E|[]]]]]]; inversion E; subst; eexists; split;
    try reflexivity; assumption.
Qed.

Lemma normalize_history_ok (df : DataFrame) (recs : list dict) :
  DataFrame_empty df = false ->
  normalize_history (Some df) = Ok recs ->
  has_label (index_label df) (columns df) = false.
Proof.
  intros Hne H. unfold normalize_history, reset_index in H. rewrite Hne in H.
  destruct (has_label (index_label df) (columns df)); [discriminate | reflexivity].
Qed.

Lemma normalize_history_nth (df : DataFrame) (recs : list dict) (i : nat) (rec : dict) :
  normalize_history (Some df) = Ok recs ->
  nth_error recs i = Some rec ->
  i < List.length (index df) /\ bar_record (history_row df i) = Ok rec.
Proof.
  intros H Hi. destruct (DataFrame_empty df) eqn:Hne.
  - unfold normalize_history in H. rewrite Hne in H. inversion H; subst.
    destruct i; discriminate.
  - rewrite (normalize_history_unfold df Hne (normalize_history_ok _ _ Hne H)) in H.
    destruct (mapM_nth_error_inv _ _ _ H i rec Hi) as [row [Ha Hf]].
    rewrite nth_error_map in Ha.
    destruct (nth_error (seq 0 (List.length (index df))) i) as [k|] eqn:Hk;
      simpl in Ha; [|discriminate].
    assert (Hlt : i < List.length (seq 0 (List.length (index df))))
      by (apply nth_error_Some; rewrite Hk; discriminate).
    rewrite length_seq in Hlt.
    apply (nth_error_nth _ _ 0) in Hk.
    rewrite seq_nth in Hk by exact Hlt. simpl in Hk; subst k.
    inversion Ha; subst row. split; [exact Hlt | exact Hf].
Qed.

End HistoryFacts.

Section HistoryClaims.

Context {B : Builtins}.

Lemma has_label_false (name : string) (labels : list scalar) :
  ~ In (SStr name) labels -> has_label name labels = false.
Proof.
  intros H. unfold has_label. destruct (existsb (label_is name) labels) eqn:E; [|reflexivity].
  apply existsb_exists in E. destruct E as [l [Hin Hl]].
  apply label_is_true in Hl. subst l. contradiction.
Qed.





Lemma history_row_index (df : DataFrame) (i : nat) :
  Series_get (history_row df i) (index_label df) = nth i (index df) SNone.
Proof.
  unfold history_row. cbn [Series_get label_is]. rewrite String.eqb_refl. reflexivity.
Qed.


(** C10.  In an emitted bar, a price field whose cell holds the float NaN is
    the float NaN, and a price field is [None] exactly when its cell holds
    [None]; a price column that the table does not have gives [None]. *)
Theorem history_nan_is_kept (df : DataFrame) (recs : list dict) (i : nat) (rec : dict)
    (name field : string) :
  NoDup (SStr (index_label df) :: columns df) ->
  normalize_history (Some df) = Ok recs ->
  nth_error recs i = Some rec ->
  In (name, field) price_fields ->
  (forall j, nth_error (columns df) j = Some (SStr name) ->
     (cell df i j = SFloat S754_nan -> dict_get rec field = Some (PFloat S754_nan)) /\
     (dict_get rec field = Some PNone <-> cell df i j = SNone)) /\
  (index_label df <> name -> has_label name (columns df) = false ->
   dict_get rec field = Some PNone).
Proof.
  intros Hnd H Hi Hf. destruct (normalize_history_nth df recs i rec H Hi) as [_ Hrec].
  destruct (bar_record_field _ _ name field Hrec Hf) as [v [Hget Hv]].
  split.
  - intros j Hj. rewrite (history_row_cell df i j name Hnd Hj) in Hv. split.
    + intros Hc. rewrite Hc in Hv. simpl in Hv. inversion Hv; subst. exact Hget.
    + rewrite Hget. split.
      * intros Hnone. inversion Hnone; subst v.
        destruct (float_or_None_inv _ _ Hv) as [[Hx _]|[_ [f [_ Hv']]]];
          [exact Hx | discriminate Hv'].
      * intros Hc. rewrite Hc in Hv. simpl in Hv. inversion Hv; reflexivity.
  - intros Hne Habs. rewrite (history_row_absent df i name Hne Habs) in Hv.
    simpl in Hv. inversion Hv; subst. exact Hget.
Qed.

End HistoryClaims.

Lemma bars_table_labels : NoDup (SStr (index_label bars_table) :: columns bars_table).
Proof.
  repeat constructor; simpl; intuition discriminate.
Qed.





Lemma history_nan_is_kept_witness :
  NoDup (SStr (index_label bars_table) :: columns bars_table) /\
  normalize_history (B := sample_builtins) (Some bars_table)
    = Ok [bar_2024_01_02; bar_2024_01_03] /\
  nth_error [bar_2024_01_02; bar_2024_01_03] 1 = Some bar_2024_01_03 /\
  In ("Close", "close") price_fields /\
  dict_get bar_2024_01_03 "close" = Some (PFloat S754_nan).
Proof.
  split; [exact bars_table_labels|]. split; [reflexivity|]. split; [reflexivity|].
  assert (Hin : In ("Close", "close") price_fields) by (simpl; tauto).
  split; [exact Hin|].
  apply (proj1 (history_nan_is_kept (B := sample_builtins) bars_table
                  [bar_2024_01_02; bar_2024_01_03] 1 bar_2024_01_03 "Close" "close"
                  bars_table_labels eq_refl eq_refl Hin) 3 eq_refl).
  reflexivity.
Defined.

(* ================================================================== *)
(** ** The dispatcher *)

Section DispatcherFacts.

Context {B : Builtins}.
Variable E : Env.

Lemma json_dumps_total : forall v, exists j, json_dumps v = Ok j.
Proof.
  fix IH 1. intros [s|l|d].
  - destruct s; simpl; eexists; reflexivity.
  - assert (H : exists js, mapM json_dumps l = Ok js).
    { induction l as [|a l IHl].
      - exists []; reflexivity.
      - destruct (IH a) as [j Hj]. destruct IHl as [js Hjs].
        exists (j :: js). simpl. rewrite Hj. simpl.
        change (match mapM json_dumps l with
                | Ok a0 => Ok (j :: a0) | Raise e => Raise e end = Ok (j :: js)).
        rewrite Hjs. reflexivity. }
    destruct H as [js Hjs]. exists (JArr js).
    change (json_dumps (PList l)) with (js <- mapM json_dumps l ;; Ok (JArr js)).
    rewrite Hjs. reflexivity.
  - assert (H : exists kjs,
               mapM (fun kv => j <- json_dumps (snd kv) ;; Ok (fst kv, j)) d = Ok kjs).
    { induction d as [|[k a] d IHd].
      - exists []; reflexivity.
      - destruct (IH a) as [j Hj]. destruct IHd as [kjs Hkjs].
        exists ((k, j) :: kjs). simpl. rewrite Hj. simpl.
        change (match mapM (fun kv => j <- json_dumps (snd kv) ;; Ok (fst kv, j)) d with
                | Ok a0 => Ok ((k, j) :: a0) | Raise e => Raise e end = Ok ((k, j) :: kjs)).
        rewrite Hkjs. reflexivity. }
    destruct H as [kjs Hkjs]. exists (JObj kjs).
    change (json_dumps (PDict d))
      with (kjs <- mapM (fun kv => j <- json_dumps (snd kv) ;; Ok (fst kv, j)) d ;;
            Ok (JObj kjs)).
    rewrite Hkjs. reflexivity.
Qed.

Lemma respond_failure (msg : string) (w : World) :
  respond false PNone (PStr msg) w =
  (Ok tt, mkWorld (stdout w ++ [failure msg]) (calls w)).
Proof.
  unfold respond, failure, py_or, PStr. cbn [truthy].
  destruct (String.eqb msg ""); reflexivity.
Qed.

Lemma respond_success (data : pyval) (jd : json) (w : World) :
  json_dumps data = Ok jd ->
  respond true data PNone w =
  (Ok tt, mkWorld (stdout w ++ [success jd]) (calls w)).
Proof.
  intros H. unfold respond, success, mbind, lift, stdout_write.
  cbn [dict_set String.eqb Ascii.eqb Bool.eqb].
  cbn [json_dumps mapM snd fst rbind]. rewrite H. reflexivity.
Qed.

Lemma quiet_lift {A} (r : result A) : quiet (lift r).
Proof. intros w; reflexivity. Qed.

Lemma quiet_ret {A} (a : A) : quiet (ret a).
Proof. intros w; reflexivity. Qed.

Lemma quiet_provider {A} (c : call) (r : result A) : quiet (provider c r).
Proof. intros w; reflexivity. Qed.

Lemma quiet_bind {A C} (m : M A) (k : A -> M C) :
  quiet m -> (forall a, quiet (k a)) -> quiet (mbind m k).
Proof.
  intros Hm Hk w. unfold mbind. specialize (Hm w).
  destruct (m w) as [[a|e] w']; simpl in *.
  - rewrite (Hk a w'). exact Hm.
  - exact Hm.
Qed.

Ltac quiet_steps :=
  repeat first
    [ apply quiet_lift | apply quiet_ret | apply quiet_provider
    | apply quiet_bind; [|intros ?] ].

Lemma quiet_handle_search (query : pyval) : quiet (handle_search E query).
Proof. unfold handle_search. quiet_steps. Qed.

Lemma quiet_handle_history (symbol start_date end_date interval : pyval) :
  quiet (handle_history E symbol start_date end_date interval).
Proof. unfold handle_history. quiet_steps. Qed.

Lemma quiet_handle_news (symbol : pyval) : quiet (handle_news E symbol).
Proof. unfold handle_news. quiet_steps. Qed.

Lemma quiet_handle_estimates (symbol : pyval) : quiet (handle_estimates E symbol).
Proof. unfold handle_estimates. quiet_steps. Qed.

Lemma quiet_handle_info (symbol : pyval) : quiet (handle_info E symbol).
Proof. unfold handle_info. quiet_steps. Qed.

Lemma quiet_handle_statements (symbol statement_type : pyval) :
  quiet (handle_statements E symbol statement_type).
Proof.
  unfold handle_statements. destruct (statement_attrs statement_type) as [a q].
  quiet_steps.
Qed.

Lemma writes_last_respond (ok : bool) (data error : pyval) :
  writes_last (respond ok data error).
Proof.
  intros w. unfold respond, mbind, lift, stdout_write.
  match goal with |- context [json_dumps ?p] => destruct (json_dumps p) as [j|e] end.
  - exists j; reflexivity.
  - reflexivity.
Qed.

Lemma writes_last_bind {A} (m : M A) (k : A -> M unit) :
  quiet m -> (forall a, writes_last (k a)) -> writes_last (mbind m k).
Proof.
  intros Hm Hk w. unfold mbind. specialize (Hm w).
  destruct (m w) as [[a|e] w']; simpl in Hm.
  - specialize (Hk a w'). destruct (k a w') as [[u|e] w'']; rewrite <- Hm; exact Hk.
  - exact Hm.
Qed.

Lemma writes_last_main_body (stdin : string) : writes_last (main_body E stdin).
Proof.
  unfold main_body.
  repeat first
    [ apply writes_last_respond
    | match goal with |- writes_last (if ?b then _ else _) => destruct b end
    | apply writes_last_bind;
      [ first [ apply quiet_lift | apply quiet_handle_search | apply quiet_handle_history
              | apply quiet_handle_news | apply quiet_handle_estimates
              | apply quiet_handle_info | apply quiet_handle_statements ]
      | intros ? ] ].
Qed.

(** Whatever the request and the provider, [main] returns and has written
    exactly one document. *)
Lemma main_writes_once (stdin : string) (w : World) :
  exists j w', main E stdin w = (Ok tt, w') /\ stdout w' = stdout w ++ [j].
Proof.
  unfold main, try_except. pose proof (writes_last_main_body stdin w) as H.
  destruct (main_body E stdin w) as [[[]|exc] w'].
  - destruct H as [j Hj]. exists j, w'. split; [reflexivity | exact Hj].
  - rewrite respond_failure. eexists; eexists. split; [reflexivity|].
    cbn [stdout]. rewrite H. reflexivity.
Qed.

Lemma eq_str_false (v : pyval) (s : string) : v <> PStr s -> eq_str v s = false.
Proof.
  intros H. destruct v as [[]| |]; try reflexivity. simpl.
  destruct (String.eqb s0 s) eqn:Es; [|reflexivity].
  apply String.eqb_eq in Es. subst. exfalso; apply H; reflexivity.
Qed.

(** C9.  The envelope [respond] writes is one JSON object whose [ok] is the
    flag given; it has a [data] field exactly when the flag is true and an
    [error] field exactly when the flag is false. *)
Theorem respond_envelope (ok : bool) (data error : pyval) (w : World) :
  exists fields,
    respond ok data error w = (Ok tt, mkWorld (stdout w ++ [JObj fields]) (calls w)) /\
    In ("ok", JBool ok) fields /\
    (In "data" (map fst fields) <-> ok = true) /\
    (In "error" (map fst fields) <-> ok = false).
Proof.
  destruct ok.
  - destruct (json_dumps_total data) as [jd Hjd].
    exists [("ok", JBool true); ("data", jd); ("source", JStr "yfinance/yahoo")].
    split; [|split; [left; reflexivity|split]].
    + unfold respond, mbind, lift, stdout_write.
      cbn [dict_set String.eqb Ascii.eqb Bool.eqb].
      cbn [json_dumps mapM snd fst rbind]. rewrite Hjd. reflexivity.
    + split; [reflexivity | intros _; right; left; reflexivity].
    + split; [|discriminate]. simpl. intros [H|[H|[H|[]]]]; discriminate H.
  - destruct (json_dumps_total (py_or error (PStr "unknown error"))) as [je Hje].
    exists [("ok", JBool false); ("error", je)].
    split; [|split; [left; reflexivity|split]].
    + unfold respond, mbind, lift, stdout_write.
      cbn [dict_set String.eqb Ascii.eqb Bool.eqb].
      cbn [json_dumps mapM snd fst rbind]. rewrite Hje. reflexivity.
    + split; [|discriminate]. simpl. intros [H|[H|[]]]; discriminate H.
    + split; [reflexivity | intros _; right; left; reflexivity].
Qed.

(** C3.  When the body of [main] raises, [main] still returns, and it has
    written one document and no more: the failure envelope, whose [error] is
    the text of the exception, or [unknown error] when that text is empty. *)
Theorem raised_error_envelope (stdin : string) (w w' : World) (exc : exn) :
  main_body E stdin w = (Raise exc, w') ->
  exists msg,
    main E stdin w =
      (Ok tt, mkWorld (stdout w ++ [JObj [("ok", JBool false); ("error", JStr msg)]])
                      (calls w')) /\
    msg <> "" /\
    (exn_str exc <> "" -> msg = exn_str exc).
Proof.
  intros H. pose proof (writes_last_main_body stdin w) as Hw. rewrite H in Hw.
  exists (if String.eqb (exn_str exc) "" then "unknown error" else exn_str exc).
  split; [|split].
  - unfold main, try_except. rewrite H, respond_failure, Hw. reflexivity.
  - destruct (String.eqb (exn_str exc) "") eqn:Es; [discriminate|].
    intros Habs. rewrite Habs in Es. discriminate.
  - intros Hne. destruct (String.eqb (exn_str exc) "") eqn:Es; [|reflexivity].
    apply String.eqb_eq in Es. contradiction.
Qed.

(** A request object that names none of the known actions reaches the last
    line of the [try]. *)
Lemma main_body_unsupported (stdin : string) (payload : dict) (w : World) :
  json_loads E (request_text stdin) = Ok (PDict payload) ->
  (forall name, In name actions -> dict_get payload "action" <> Some (PStr name)) ->
  main_body E stdin w = respond false PNone (PStr "Unsupported action") w.
Proof.
  intros Hload Hact.
  assert (Hne : forall name, In name actions ->
            eq_str (dict_get_or_None payload "action") name = false).
  { intros name Hin. apply eq_str_false. specialize (Hact name Hin).
    unfold dict_get_or_None.
    destruct (dict_get payload "action") as [x|]; [|discriminate].
    intros Habs. apply Hact. rewrite Habs. reflexivity. }
  unfold main_body.
  unfold mbind at 1. unfold lift at 1. rewrite Hload.
  unfold mbind at 1. unfold lift at 1. cbn [py_get].
  rewrite !Hne by (simpl; tauto). reflexivity.
Qed.

(** C4.  A request object whose [action] is missing or is none of the six
    known ones gets the [Unsupported action] failure envelope, and the
    provider is not called. *)
Theorem unsupported_action (stdin : string) (payload : dict) (w : World) :
  json_loads E (request_text stdin) = Ok (PDict payload) ->
  (forall name, In name actions -> dict_get payload "action" <> Some (PStr name)) ->
  main E stdin w =
    (Ok tt, mkWorld (stdout w ++ [JObj [("ok", JBool false);
                                        ("error", JStr "Unsupported action")]])
                    (calls w)).
Proof.
  intros Hload Hact. unfold main, try_except.
  rewrite (main_body_unsupported stdin payload w Hload Hact).
  rewrite respond_failure. reflexivity.
Qed.

End DispatcherFacts.

Section DispatcherClaims.

Context {B : Builtins}.
Variable E : Env.

Lemma mbind_run {A C} (m : M A) (k : A -> M C) (w w' : World) (a : A) :
  m w = (Ok a, w') -> mbind m k w = k a w'.
Proof. intros H. unfold mbind. rewrite H. reflexivity. Qed.

Lemma mbind_lift_Ok {A C} (a : A) (k : A -> M C) (w : World) :
  mbind (lift (Ok a)) k w = k a w.
Proof. reflexivity. Qed.

Lemma mbind_provider_Ok {A C} (c : call) (r : result A) (a : A) (k : A -> M C)
    (w : World) :
  r = Ok a -> mbind (provider c r) k w = k a (mkWorld (stdout w) (calls w ++ [c])).
Proof. intros ->. reflexivity. Qed.

Lemma main_decode_error (stdin : string) (exc : exn) (w : World) :
  json_loads E (request_text stdin) = Raise exc ->
  main E stdin w = (Ok tt, mkWorld (stdout w ++ [failure (exn_str exc)]) (calls w)).
Proof.
  intros H. unfold main, try_except, main_body.
  unfold mbind at 1. unfold lift at 1. rewrite H. apply respond_failure.
Qed.

(** C5, as amended.  Empty input is read as the empty object and gets the
    [Unsupported action] failure envelope.  Input that the decoder rejects
    gets a failure envelope too, written once and with no call to the
    provider, but its [error] is the decoder's message; and input that
    decodes to something else than an object gets the failure envelope of
    the missing [get] method. *)
Theorem rejected_input_envelope (stdin : string) (w : World) :
  json_loads E "{}" = Ok (PDict []) ->
  (stdin = "" ->
   main E stdin w =
     (Ok tt, mkWorld (stdout w ++ [failure "Unsupported action"]) (calls w))) /\
  (forall exc, json_loads E (request_text stdin) = Raise exc ->
   main E stdin w =
     (Ok tt, mkWorld (stdout w ++ [failure (exn_str exc)]) (calls w))) /\
  (forall v, json_loads E (request_text stdin) = Ok v ->
   (forall d, v <> PDict d) ->
   main E stdin w =
     (Ok tt, mkWorld (stdout w ++ [failure ("'" ++ type_name v
                                            ++ "' object has no attribute 'get'")])
                     (calls w))).
Proof.
  intros Hempty. split; [|split].
  - intros ->. unfold main, try_except.
    rewrite (main_body_unsupported E "" [] w Hempty) by (intros name _; discriminate).
    rewrite respond_failure. reflexivity.
  - intros exc H. apply main_decode_error. exact H.
  - intros v H Hv. unfold main, try_except, main_body.
    unfold mbind at 1. unfold lift at 1. rewrite H.
    unfold mbind at 1. unfold lift at 1.
    destruct v as [s|l|d]; [| |exfalso; apply (Hv d); reflexivity];
      cbn [py_get]; rewrite respond_failure; reflexivity.
Qed.

Lemma coerce_total (val : scalar) :
  converts val = true -> exists v, coerce val = Ok v.
Proof.
  unfold coerce. destruct val; simpl; intros H; try (eexists; reflexivity).
  destruct (float_of_int z) as [f|e]; [|discriminate]. eexists; reflexivity.
Qed.

Lemma foldM_record_step_total (row : Series) :
  (forall key val, In (key, val) row -> converts val = true) ->
  forall rec0, exists rec, foldM record_step rec0 row = Ok rec.
Proof.
  induction row as [|[key val] row IH]; intros Hrow rec0.
  - exists rec0; reflexivity.
  - cbn [foldM]. rewrite record_step_eq.
    assert (Hrow' : forall key val, In (key, val) row -> converts val = true)
      by (intros; eapply Hrow; right; eassumption).
    destruct (pd_isna val); cbn [rbind]; [apply (IH Hrow')|].
    destruct (coerce_total val (Hrow key val (or_introl eq_refl))) as [v ->].
    cbn [rbind]. apply (IH Hrow').
Qed.

(** The statement normalizer returns on a table whose integers convert. *)
Lemma df_to_records_total (df : DataFrame) :
  (forall i j, i < List.length (index df) -> j < List.length (columns df) ->
               converts (cell df i j) = true) ->
  exists recs, df_to_records (Some df) = Ok recs.
Proof.
  intros Hc. destruct (DataFrame_empty df) eqn:Hne.
  - exists []. unfold df_to_records. rewrite Hne. reflexivity.
  - rewrite (df_to_records_unfold df Hne). apply mapM_total.
    intros [idx row] Hin. apply in_map_iff in Hin.
    destruct Hin as [[i col] [Heq Hin]]. inversion Heq; subst.
    apply enumerate_In in Hin.
    apply foldM_record_step_total. intros key val Hkv.
    apply period_row_In in Hkv. destruct Hkv as [j [Hj ->]].
    apply Hc; apply nth_error_Some; [rewrite Hj | rewrite Hin]; discriminate.
Qed.

Lemma df_to_records_empty (annual : option DataFrame) :
  (forall df, annual = Some df -> DataFrame_empty df = true) ->
  df_to_records annual = Ok [].
Proof.
  intros H. destruct annual as [df|]; [|reflexivity].
  unfold df_to_records. rewrite (H df eq_refl). reflexivity.
Qed.

(** C8.  A [statements] request for which the provider has an empty (or no)
    annual table and a quarterly table that is not empty gets a success
    envelope whose [data.annual] is the empty list and whose
    [data.quarterly] holds the records of the quarterly table, one per
    column, that is per reporting period, the [i]-th record being the one
    of the [i]-th period. *)
Theorem statements_annual_empty (stdin : string) (payload : dict) (a q : string)
    (annual : option DataFrame) (quarterly : DataFrame) (w : World) :
  let symbol := dict_get_or_None payload "symbol" in
  let statement_type := dict_get_or_None payload "statement_type" in
  json_loads E (request_text stdin) = Ok (PDict payload) ->
  dict_get payload "action" = Some (PStr "statements") ->
  statement_attrs statement_type = (a, q) ->
  yf_Ticker E symbol = Ok tt ->
  ticker_table E symbol a = Ok annual ->
  ticker_table E symbol q = Ok (Some quarterly) ->
  (forall df, annual = Some df -> DataFrame_empty df = true) ->
  DataFrame_empty quarterly = false ->
  (forall i j, i < List.length (index quarterly) -> j < List.length (columns quarterly) ->
               converts (cell quarterly i j) = true) ->
  exists recs docs,
    df_to_records (Some quarterly) = Ok recs /\
    mapM json_dumps (map PDict recs) = Ok docs /\
    List.length recs = List.length (columns quarterly) /\
    (forall i col, nth_error (columns quarterly) i = Some col ->
       exists rec, nth_error recs i = Some rec /\
         period_record (SStr (relabel col)) (period_row quarterly i) = Ok rec) /\
    List.length docs = List.length (columns quarterly) /\
    main E stdin w =
      (Ok tt,
       mkWorld (stdout w ++ [success (JObj [("annual", JArr []); ("quarterly", JArr docs)])])
               (calls w ++ [NewTicker symbol; TickerAttr symbol a; TickerAttr symbol q])).
Proof.
  intros symbol statement_type Hload Hact Hattrs Hticker Hann Hqua Hempty Hne Hconv.
  destruct (df_to_records_total quarterly Hconv) as [recs Hrecs].
  destruct (json_dumps_total (PList (map PDict recs))) as [j Hj].
  change (json_dumps (PList (map PDict recs)))
    with (js <- mapM json_dumps (map PDict recs) ;; Ok (JArr js)) in Hj.
  destruct (mapM json_dumps (map PDict recs)) as [docs|] eqn:Hdocs; [|discriminate].
  exists recs, docs.
  pose proof (df_to_records_length quarterly recs Hne Hrecs) as Hlen.
  split; [exact Hrecs|]. split; [exact Hdocs|]. split; [exact Hlen|].
  split; [intros i col Hi; apply (df_to_records_period quarterly recs i col Hne Hrecs Hi)|].
  split; [rewrite (mapM_length _ _ _ Hdocs), length_map; exact Hlen|].
  assert (Ha : dict_get_or_None payload "action" = PStr "statements")
    by (unfold dict_get_or_None; rewrite Hact; reflexivity).
  assert (Hdata : json_dumps (PDict [("annual", records_value []);
                                     ("quarterly", records_value recs)])
                  = Ok (JObj [("annual", JArr []); ("quarterly", JArr docs)])).
  { unfold records_value. cbn [json_dumps mapM snd fst rbind map].
    change (mapM json_dumps (map PDict recs)) with (mapM json_dumps (map PDict recs)).
    rewrite Hdocs. reflexivity. }
  assert (Hrun : handle_statements E symbol statement_type w =
                 (Ok (PDict [("annual", records_value []);
                             ("quarterly", records_value recs)]),
                  mkWorld (stdout w)
                          (calls w ++ [NewTicker symbol; TickerAttr symbol a;
                                       TickerAttr symbol q]))).
  { unfold handle_statements. rewrite Hattrs.
    rewrite (mbind_provider_Ok _ _ tt _ _ Hticker).
    rewrite (mbind_provider_Ok _ _ annual _ _ Hann).
    rewrite (mbind_provider_Ok _ _ (Some quarterly) _ _ Hqua).
    rewrite (df_to_records_empty annual Hempty), mbind_lift_Ok.
    rewrite Hrecs, mbind_lift_Ok.
    unfold ret. cbn [stdout calls]. rewrite <- !app_assoc. reflexivity. }
  unfold main, try_except, main_body.
  rewrite Hload, mbind_lift_Ok. cbn [py_get]. rewrite mbind_lift_Ok, Ha.
  replace (eq_str (PStr "statements") "search") with false by reflexivity.
  replace (eq_str (PStr "statements") "history") with false by reflexivity.
  replace (eq_str (PStr "statements") "news") with false by reflexivity.
  replace (eq_str (PStr "statements") "estimates") with false by reflexivity.
  replace (eq_str (PStr "statements") "info") with false by reflexivity.
  replace (eq_str (PStr "statements") "statements") with true by reflexivity.
  rewrite !mbind_lift_Ok. fold symbol. fold statement_type.
  rewrite (mbind_run _ _ _ _ _ Hrun).
  rewrite (respond_success _ _ _ Hdata). reflexivity.
Qed.

End DispatcherClaims.

(* ================================================================== *)
(** ** The claims on the dispatcher at the sample provider *)

(** The provider is down while the news are fetched. *)
Lemma raised_error_envelope_witness :
  main_body (B := sample_builtins) sample_env news_request world0 =
    (Raise (mkExn "ConnectionError" "Max retries exceeded"),
     mkWorld [] [NewTicker (PStr "AAPL"); TickerAttr (PStr "AAPL") "news"]) /\
  main (B := sample_builtins) sample_env news_request world0 =
    (Ok tt,
     mkWorld [JObj [("ok", JBool false); ("error", JStr "Max retries exceeded")]]
             [NewTicker (PStr "AAPL"); TickerAttr (PStr "AAPL") "news"]).
Proof.
  split; [reflexivity|].
  destruct (raised_error_envelope (B := sample_builtins) sample_env news_request world0
              (mkWorld [] [NewTicker (PStr "AAPL"); TickerAttr (PStr "AAPL") "news"])
              (mkExn "ConnectionError" "Max retries exceeded") eq_refl)
    as [msg [Hmain [_ Hmsg]]].
  rewrite Hmain, Hmsg; [reflexivity | discriminate].
Defined.

(** The empty object names no action. *)
Lemma unsupported_action_witness :
  json_loads sample_env (request_text "{}") = Ok (PDict []) /\
  main (B := sample_builtins) sample_env "{}" world0 =
    (Ok tt, mkWorld [JObj [("ok", JBool false); ("error", JStr "Unsupported action")]] []).
Proof.
  split; [reflexivity|].
  apply (unsupported_action (B := sample_builtins) sample_env "{}" [] world0 eq_refl).
  intros name _. discriminate.
Defined.

(** No input at all. *)
Lemma rejected_input_envelope_witness :
  json_loads sample_env "{}" = Ok (PDict []) /\
  main (B := sample_builtins) sample_env "" world0 =
    (Ok tt, mkWorld [failure "Unsupported action"] []).
Proof.
  split; [reflexivity|].
  apply (proj1 (rejected_input_envelope (B := sample_builtins) sample_env "" world0
                  eq_refl) eq_refl).
Defined.

(** C5 as stated fails: on the malformed input [{] the error of the envelope
    is the decoder's message, not [Unsupported action]. *)
Lemma malformed_input_not_unsupported :
  main (B := sample_builtins) sample_env "{" world0 =
    (Ok tt,
     mkWorld [JObj [("ok", JBool false);
                    ("error", JStr "Expecting property name enclosed in double quotes: line 1 column 2 (char 1)")]]
             []) /\
  "Expecting property name enclosed in double quotes: line 1 column 2 (char 1)"
    <> "Unsupported action".
Proof. split; [reflexivity | discriminate]. Qed.

(** No annual income statement, two quarters. *)
Lemma statements_annual_empty_witness :
  json_loads sample_env (request_text statements_request) =
    Ok (PDict [("action", PStr "statements"); ("symbol", PStr "AAPL");
               ("statement_type", PStr "income")]) /\
  DataFrame_empty empty_table = true /\
  DataFrame_empty income_table = false /\
  exists recs docs,
    df_to_records (B := sample_builtins) (Some income_table) = Ok recs /\
    mapM (json_dumps (B := sample_builtins)) (map PDict recs) = Ok docs /\
    List.length recs = 2 /\
    List.length docs = 2 /\
    main (B := sample_builtins) sample_env statements_request world0 =
      (Ok tt,
       mkWorld [success (JObj [("annual", JArr []); ("quarterly", JArr docs)])]
               [NewTicker (PStr "AAPL"); TickerAttr (PStr "AAPL") "financials";
                TickerAttr (PStr "AAPL") "quarterly_financials"]).
Proof.
  split; [reflexivity|]. split; [reflexivity|]. split; [reflexivity|].
  assert (Hempty : forall df, Some empty_table = Some df -> DataFrame_empty df = true)
    by (intros df H; inversion H; reflexivity).
  assert (Hconv : forall i j, i < List.length (index income_table) ->
                    j < List.length (columns income_table) ->
                    converts (cell income_table i j) = true).
  { intros i j Hi Hj. simpl in Hi, Hj.
    destruct i as [|[|i]]; [| |lia]; (destruct j as [|[|j]]; [reflexivity..|lia]). }
  destruct (statements_annual_empty (B := sample_builtins) sample_env statements_request
              [("action", PStr "statements"); ("symbol", PStr "AAPL");
               ("statement_type", PStr "income")]
              "financials" "quarterly_financials" (Some empty_table) income_table world0
              eq_refl eq_refl eq_refl eq_refl eq_refl eq_refl Hempty eq_refl Hconv)
    as [recs [docs [Hrecs [Hdocs [Hlen [_ [Hlen' Hmain]]]]]]].
  exists recs, docs. repeat split; assumption.
Defined.

(* ================================================================== *)
(** ** Further properties of the normalizers *)

Lemma mapM_Raise_inv {A B} (f : A -> result B) (l : list A) (e : exn) :
  mapM f l = Raise e -> exists a, In a l /\ f a = Raise e.
Proof.
  induction l as [|x l IH]; intros H; simpl in H; [discriminate|].
  destruct (f x) as [b|e0] eqn:Hx; simpl in H.
  - destruct (mapM f l) as [bs|e1] eqn:Hl; simpl in H; [discriminate|].
    inversion H; subst. destruct (IH eq_refl) as [a [Hin Ha]].
    exists a; split; [right; exact Hin | exact Ha].
  - inversion H; subst. exists x; split; [left; reflexivity | exact Hx].
Qed.

Lemma mapM_raises {A B} (f : A -> result B) (l : list A) (a : A) (e0 : exn) :
  In a l -> f a = Raise e0 -> exists e, mapM f l = Raise e.
Proof.
  induction l as [|x l IH]; intros Hin Ha; [destruct Hin|].
  simpl. destruct (f x) as [b|e1] eqn:Hx; simpl; [|exists e1; reflexivity].
  destruct Hin as [->|Hin]; [rewrite Ha in Hx; discriminate|].
  destruct (IH Hin Ha) as [e He].
  change (exists e', match mapM f l with
                     | Ok bs => Ok (b :: bs) | Raise e'' => Raise e'' end = Raise e').
  rewrite He. exists e; reflexivity.
Qed.

Lemma foldM_Raise_inv {A S} (f : S -> A -> result S) (l : list A) (e : exn) :
  forall s, foldM f s l = Raise e -> exists s' a, In a l /\ f s' a = Raise e.
Proof.
  induction l as [|x l IH]; intros s H; simpl in H; [discriminate|].
  destruct (f s x) as [s1|e0] eqn:Hx; simpl in H.
  - destruct (IH s1 H) as [s' [a [Hin Ha]]].
    exists s', a; split; [right; exact Hin | exact Ha].
  - inversion H; subst. exists s, x; split; [left; reflexivity | exact Hx].
Qed.

Section NormalizerProperties.

Context {B : Builtins}.

(** X1.  The statement normalizer emits no record for an empty table, also
    when the table has periods but no line item, and one record per column
    otherwise. *)
Theorem df_to_records_count (df : DataFrame) (recs : list dict) :
  df_to_records (Some df) = Ok recs ->
  List.length recs = if DataFrame_empty df then 0 else List.length (columns df).
Proof.
  intros H. destruct (DataFrame_empty df) eqn:Hne.
  - unfold df_to_records in H. rewrite Hne in H. inversion H. reflexivity.
  - rewrite (df_to_records_unfold df Hne) in H. apply mapM_length in H.
    rewrite H, length_map. apply enumerate_length.
Qed.

(** X2.  In the records of the statement normalizer every number is a float:
    no field holds an [int] or a [bool]. *)
Theorem df_to_records_floats (df : DataFrame) (recs : list dict) (rec : dict)
    (k : string) (v : pyval) :
  df_to_records (Some df) = Ok recs ->
  In rec recs ->
  dict_get rec k = Some v ->
  is_int v = false.
Proof.
  intros H Hin Hget. apply In_nth_error in Hin. destruct Hin as [i Hi].
  destruct (df_to_records_nth df recs i rec H Hi) as [col [_ Hrec]].
  unfold period_record in Hrec.
  destruct (foldM_record_step_origin _ _ _ Hrec k v Hget)
    as [L|(key & val & _ & _ & _ & Hc)].
  - cbn [dict_get] in L. destruct (String.eqb "report_period" k); [|discriminate].
    inversion L; reflexivity.
  - unfold coerce in Hc.
    destruct (isinstance_float val || isinstance_int val) eqn:Hnum.
    + destruct (py_float val); simpl in Hc; inversion Hc; reflexivity.
    + inversion Hc; subst. destruct val; simpl in Hnum; try discriminate; reflexivity.
Qed.

(** X3.  The only exception the statement normalizer raises is the
    [OverflowError] of an integer cell that is too large for a float. *)
Theorem df_to_records_raises (df : DataFrame) (e : exn) :
  df_to_records (Some df) = Raise e ->
  e = OverflowError "int too large to convert to float" /\
  exists i j z, j < List.length (index df) /\ i < List.length (columns df) /\
                cell df j i = SInt z /\ float_of_int z = Raise e.
Proof.
  intros H. destruct (DataFrame_empty df) eqn:Hne.
  { unfold df_to_records in H. rewrite Hne in H. discriminate. }
  rewrite (df_to_records_unfold df Hne) in H.
  destruct (mapM_Raise_inv _ _ _ H) as [[idx row] [Hin Hrow]].
  apply in_map_iff in Hin. destruct Hin as [[i col] [Heq Hin]].
  inversion Heq; subst; clear Heq. apply enumerate_In in Hin.
  unfold period_record in Hrow.
  destruct (foldM_Raise_inv _ _ _ _ Hrow) as [rec [[key val] [Hkv Hstep]]].
  apply period_row_In in Hkv. destruct Hkv as [j [Hj ->]].
  rewrite record_step_eq in Hstep.
  destruct (pd_isna (cell df j i)); [discriminate|].
  unfold coerce in Hstep.
  destruct (cell df j i) as [| |z| | | | | |] eqn:Hcell; simpl in Hstep;
    try discriminate.
  assert (Hz : float_of_int z = Raise e).
  { destruct (float_of_int z); simpl in Hstep; [discriminate|].
    inversion Hstep; reflexivity. }
  split.
  - unfold float_of_int in Hz. destruct (float_of_Z z); inversion Hz; reflexivity.
  - exists i, j, z. repeat split; try assumption; apply nth_error_Some;
      [rewrite Hj | rewrite Hin]; discriminate.
Qed.

(** X4.  The record of a period whose column label is a timestamp carries the
    calendar date of the label, of the shape [YYYY-MM-DD], as its
    [report_period], when no line item is itself labelled [report_period]. *)
Theorem report_period_is_a_date (df : DataFrame) (recs : list dict) (i : nat)
    (rec : dict) (ts : Timestamp) :
  df_to_records (Some df) = Ok recs ->
  nth_error recs i = Some rec ->
  nth_error (columns df) i = Some (STimestamp ts) ->
  date_in_range (dt_date (ts_datetime ts)) ->
  (forall key, In key (index df) -> py_str key <> "report_period") ->
  dict_get rec "report_period" = Some (PStr (date_isoformat (dt_date (ts_datetime ts)))) /\
  like "dddd-dd-dd" (date_isoformat (dt_date (ts_datetime ts))) = true.
Proof.
  intros H Hi Hcol Hrange Hkeys.
  destruct (df_to_records_nth df recs i rec H Hi) as [col [Hcol' Hrec]].
  rewrite Hcol in Hcol'. inversion Hcol'; subst col. split.
  - unfold period_record in Hrec. cbn [py_str] in Hrec.
    rewrite (foldM_record_step_untouched (period_row df i) "report_period") with
      (rec0 := [("report_period", PStr (relabel (STimestamp ts)))]) (rec := rec).
    + reflexivity.
    + intros key val Hin Hs. exfalso. apply period_row_In in Hin.
      destruct Hin as [j [Hj _]]. apply (Hkeys key); [|exact Hs].
      apply (nth_error_In _ _ Hj).
    + exact Hrec.
  - apply date_isoformat_like. exact Hrange.
Qed.

(** X5.  The history normalizer emits no bar for an empty table, also when
    the table has rows but no column, and one bar per row otherwise. *)
Theorem normalize_history_count (df : DataFrame) (recs : list dict) :
  normalize_history (Some df) = Ok recs ->
  List.length recs = if DataFrame_empty df then 0 else List.length (index df).
Proof.
  intros H. destruct (DataFrame_empty df) eqn:Hne.
  - unfold normalize_history in H. rewrite Hne in H. inversion H. reflexivity.
  - rewrite (normalize_history_unfold df Hne (normalize_history_ok _ _ Hne H)) in H.
    apply mapM_length in H. rewrite H, length_map, length_seq. reflexivity.
Qed.

Lemma bar_record_raises (row : Series) (name field : string) (e0 : exn) :
  In (name, field) price_fields ->
  float_or_None (Series_get row name) = Raise e0 ->
  exists e, bar_record row = Raise e.
Proof.
  intros Hin Hraise. unfold bar_record. rewrite bar_date_eq. cbn [rbind].
  simpl in Hin.
  destruct (float_or_None (Series_get row "Open")) as [o|eo] eqn:Ho;
    [|eexists; reflexivity]. cbn [rbind].
  destruct (float_or_None (Series_get row "High")) as [h|eh] eqn:Hh;
    [|eexists; reflexivity]. cbn [rbind].
  destruct (float_or_None (Series_get row "Low")) as [l|el] eqn:Hl;
    [|eexists; reflexivity]. cbn [rbind].
  destruct (float_or_None (Series_get row "Close")) as [c|ec] eqn:Hc;
    [|eexists; reflexivity]. cbn [rbind].
  destruct (float_or_None (Series_get row "Volume")) as [v|ev] eqn:Hv;
    [|eexists; reflexivity].
  exfalso.
  destruct Hin as [E|[E|[E|[E|[E|[]]]]]]; inversion E; subst; congruence.
Qed.

(** X6.  One price cell that holds a date-like value (a timestamp, a
    datetime, a date or NaT) makes the history normalizer raise: no bar of
    the table is emitted. *)
Theorem normalize_history_bad_cell (df : DataFrame) (i j : nat) (name field : string) :
  NoDup (SStr (index_label df) :: columns df) ->
  In (name, field) price_fields ->
  i < List.length (index df) ->
  nth_error (columns df) j = Some (SStr name) ->
  hasattr_isoformat (cell df i j) = true ->
  exists e, normalize_history (Some df) = Raise e.
Proof.
  intros Hnd Hf Hi Hj Hbad.
  assert (Hne : DataFrame_empty df = false).
  { unfold DataFrame_empty. destruct (index df); [simpl in Hi; lia|].
    destruct (columns df); [destruct j; discriminate | reflexivity]. }
  assert (Hlab : has_label (index_label df) (columns df) = false)
    by (apply has_label_false; inversion Hnd; assumption).
  rewrite (normalize_history_unfold df Hne Hlab).
  assert (Hcell : exists e0, float_or_None (Series_get (history_row df i) name) = Raise e0).
  { rewrite (history_row_cell df i j name Hnd Hj).
    destruct (cell df i j); simpl in Hbad; try discriminate; eexists; reflexivity. }
  destruct Hcell as [e0 He0].
  destruct (bar_record_raises _ name field e0 Hf He0) as [e1 He1].
  apply (mapM_raises bar_record _ (history_row df i) e1); [|exact He1].
  apply in_map. apply in_seq. lia.
Qed.

(** X7.  For a table indexed by [Datetime] that has no [Date] column, as
    intraday bars are, the [date] of a bar whose row label is a timestamp is
    the ISO-8601 text of that label. *)
Theorem intraday_date_field (df : DataFrame) (recs : list dict) (i : nat) (rec : dict)
    (ts : Timestamp) :
  NoDup (SStr (index_label df) :: columns df) ->
  index_label df = "Datetime" ->
  has_label "Date" (columns df) = false ->
  nth_error (index df) i = Some (STimestamp ts) ->
  normalize_history (Some df) = Ok recs ->
  nth_error recs i = Some rec ->
  dict_get rec "date" = Some (PStr (datetime_isoformat "T" (ts_datetime ts))).
Proof.
  intros _ Hlab Hdate Hts H Hi.
  destruct (normalize_history_nth df recs i rec H Hi) as [_ Hrec].
  destruct (bar_record_inv _ _ Hrec) as (o & h & l & c & v & -> & _).
  cbn [dict_get]. rewrite String.eqb_refl. unfold date_value_of.
  rewrite (history_row_absent df i "Date"); [|rewrite Hlab; discriminate | exact Hdate].
  cbn [truthy]. rewrite <- Hlab, history_row_index, (nth_error_nth _ _ SNone Hts).
  reflexivity.
Qed.

(** X8.  The [date] of a bar whose row label is a timestamp, in a table
    indexed by [Date], is a text that starts with [YYYY-MM-DDTHH:MM:SS]; the
    nanoseconds of the timestamp are dropped. *)
Theorem history_date_is_iso (df : DataFrame) (recs : list dict) (i : nat) (rec : dict)
    (ts : Timestamp) :
  NoDup (SStr (index_label df) :: columns df) ->
  index_label df = "Date" ->
  nth_error (index df) i = Some (STimestamp ts) ->
  date_in_range (dt_date (ts_datetime ts)) ->
  time_in_range (ts_datetime ts) ->
  normalize_history (Some df) = Ok recs ->
  nth_error recs i = Some rec ->
  dict_get rec "date" = Some (PStr (datetime_isoformat "T" (ts_datetime ts))) /\
  starts_like "dddd-dd-ddTdd:dd:dd" (datetime_isoformat "T" (ts_datetime ts)) = true.
Proof.
  intros _ Hlab Hts Hd Ht H Hi.
  destruct (normalize_history_nth df recs i rec H Hi) as [_ Hrec].
  destruct (bar_record_inv _ _ Hrec) as (o & h & l & c & v & -> & _).
  split; [|apply datetime_isoformat_like; assumption].
  cbn [dict_get]. rewrite String.eqb_refl. unfold date_value_of.
  rewrite <- Hlab, history_row_index, (nth_error_nth _ _ SNone Hts). reflexivity.
Qed.

End NormalizerProperties.

Lemma df_to_records_count_witness :
  df_to_records (B := sample_builtins) (Some income_table) =
    Ok [[("report_period", PStr "2023-12-31");
         ("Total Revenue", PFloat (float_of_Z 100)); ("Net Income", PFloat (float_of_Z 7))];
        [("report_period", PStr "2022-12-31"); ("Net Income", PFloat (float_of_Z 5))]] /\
  List.length [[("report_period", PStr "2023-12-31");
                ("Total Revenue", PFloat (float_of_Z 100));
                ("Net Income", PFloat (float_of_Z 7))];
               [("report_period", PStr "2022-12-31"); ("Net Income", PFloat (float_of_Z 5))]]
    = 2.
Proof.
  split; [reflexivity|].
  apply (df_to_records_count (B := sample_builtins) income_table _ eq_refl).
Defined.

(** The integer 42 of [revenue_table] is emitted as a float. *)
Lemma df_to_records_floats_witness :
  df_to_records (B := sample_builtins) (Some revenue_table) =
    Ok [[("report_period", PStr "2023-12-31");
         ("Total Revenue", PFloat (float_of_Z 42))]] /\
  is_int (PFloat (float_of_Z 42)) = false.
Proof.
  split; [reflexivity|].
  apply (df_to_records_floats (B := sample_builtins) revenue_table
           [[("report_period", PStr "2023-12-31");
             ("Total Revenue", PFloat (float_of_Z 42))]]
           [("report_period", PStr "2023-12-31");
            ("Total Revenue", PFloat (float_of_Z 42))]
           "Total Revenue" (PFloat (float_of_Z 42)) eq_refl (or_introl eq_refl) eq_refl).
Defined.

Lemma df_to_records_raises_witness :
  df_to_records (B := sample_builtins) (Some huge_table) =
    Raise (OverflowError "int too large to convert to float") /\
  exists i j z, j < List.length (index huge_table) /\ i < List.length (columns huge_table) /\
                cell huge_table j i = SInt z /\
                float_of_int z = Raise (OverflowError "int too large to convert to float").
Proof.
  assert (H : df_to_records (B := sample_builtins) (Some huge_table) =
              Raise (OverflowError "int too large to convert to float"))
    by (vm_compute; reflexivity).
  split; [exact H|].
  apply (proj2 (df_to_records_raises (B := sample_builtins) huge_table
                  (OverflowError "int too large to convert to float") H)).
Defined.

Lemma report_period_is_a_date_witness :
  nth_error (columns income_table) 0 = Some (STimestamp (midnight 2023 12 31)) /\
  dict_get [("report_period", PStr "2023-12-31");
            ("Total Revenue", PFloat (float_of_Z 100)); ("Net Income", PFloat (float_of_Z 7))]
           "report_period" = Some (PStr "2023-12-31") /\
  like "dddd-dd-dd" "2023-12-31" = true.
Proof.
  split; [reflexivity|].
  apply (report_period_is_a_date (B := sample_builtins) income_table
           [[("report_period", PStr "2023-12-31");
             ("Total Revenue", PFloat (float_of_Z 100));
             ("Net Income", PFloat (float_of_Z 7))];
            [("report_period", PStr "2022-12-31"); ("Net Income", PFloat (float_of_Z 5))]]
           0 _ (midnight 2023 12 31) eq_refl eq_refl eq_refl).
  - unfold date_in_range; simpl; lia.
  - intros key [<-|[<-|[]]]; intros H; discriminate H.
Defined.

(** Two rows, no column: no bar. *)
Lemma normalize_history_count_witness :
  normalize_history (B := sample_builtins) (Some no_columns_table) = Ok [] /\
  List.length (index no_columns_table) = 2 /\
  List.length (@nil dict) = 0.
Proof.
  split; [reflexivity|]. split; [reflexivity|].
  apply (normalize_history_count (B := sample_builtins) no_columns_table [] eq_refl).
Defined.

Lemma normalize_history_bad_cell_witness :
  cell broken_table 0 1 = SNaT /\
  exists e, normalize_history (B := sample_builtins) (Some broken_table) = Raise e.
Proof.
  split; [reflexivity|].
  apply (normalize_history_bad_cell (B := sample_builtins) broken_table 0 1
           "Volume" "volume").
  - repeat constructor; simpl; intuition discriminate.
  - simpl; tauto.
  - simpl; lia.
  - reflexivity.
  - reflexivity.
Defined.

Lemma intraday_date_field_witness :
  nth_error (index intraday_table) 1 = Some (STimestamp (at_time 2024 1 2 9 31 (-300))) /\
  normalize_history (B := sample_builtins) (Some intraday_table) =
    Ok [[("date", PStr "2024-01-02T09:30:00-05:00"); ("open", PFloat (float_of_Z 10));
         ("high", PNone); ("low", PNone); ("close", PFloat (float_of_Z 10));
         ("volume", PNone)];
        [("date", PStr "2024-01-02T09:31:00-05:00"); ("open", PFloat (float_of_Z 10));
         ("high", PNone); ("low", PNone); ("close", PFloat (float_of_Z 10));
         ("volume", PNone)]] /\
  dict_get [("date", PStr "2024-01-02T09:31:00-05:00"); ("open", PFloat (float_of_Z 10));
            ("high", PNone); ("low", PNone); ("close", PFloat (float_of_Z 10));
            ("volume", PNone)] "date"
    = Some (PStr "2024-01-02T09:31:00-05:00").
Proof.
  split; [reflexivity|]. split; [reflexivity|].
  apply (intraday_date_field (B := sample_builtins) intraday_table
           [[("date", PStr "2024-01-02T09:30:00-05:00"); ("open", PFloat (float_of_Z 10));
             ("high", PNone); ("low", PNone); ("close", PFloat (float_of_Z 10));
             ("volume", PNone)];
            [("date", PStr "2024-01-02T09:31:00-05:00"); ("open", PFloat (float_of_Z 10));
             ("high", PNone); ("low", PNone); ("close", PFloat (float_of_Z 10));
             ("volume", PNone)]] 1
           [("date", PStr "2024-01-02T09:31:00-05:00"); ("open", PFloat (float_of_Z 10));
            ("high", PNone); ("low", PNone); ("close", PFloat (float_of_Z 10));
            ("volume", PNone)]
           (at_time 2024 1 2 9 31 (-300)));
    try reflexivity.
  repeat constructor; simpl; intuition discriminate.
Defined.

Lemma history_date_is_iso_witness :
  nth_error (index bars_table) 0 = Some (STimestamp (at_time 2024 1 2 0 0 (-300))) /\
  dict_get bar_2024_01_02 "date" = Some (PStr "2024-01-02T00:00:00-05:00") /\
  starts_like "dddd-dd-ddTdd:dd:dd" "2024-01-02T00:00:00-05:00" = true.
Proof.
  split; [reflexivity|].
  apply (history_date_is_iso (B := sample_builtins) bars_table
           [bar_2024_01_02; bar_2024_01_03] 0 bar_2024_01_02
           (at_time 2024 1 2 0 0 (-300)) bars_table_labels eq_refl eq_refl).
  - unfold date_in_range; simpl; lia.
  - unfold time_in_range; simpl; lia.
  - reflexivity.
  - reflexivity.
Defined.

(* ================================================================== *)
(** ** Further properties of the dispatcher *)

Section DispatcherProperties.

Context {B : Builtins}.
Variable E : Env.

(** Native JSON data is rendered as it is. *)
Lemma json_dumps_of_json : forall j, json_dumps (of_json j) = Ok j.
Proof.
  fix IH 1. intros [ |b|z|f|s|l|l]; try reflexivity.
  - assert (H : mapM json_dumps (map of_json l) = Ok l).
    { induction l as [|a l IHl]; [reflexivity|].
      cbn [map mapM]. rewrite (IH a). cbn [rbind].
      change (match mapM json_dumps (map of_json l) with
              | Ok bs => Ok (a :: bs) | Raise e => Raise e end = Ok (a :: l)).
      rewrite IHl. reflexivity. }
    change (json_dumps (of_json (JArr l)))
      with (js <- mapM json_dumps (map of_json l) ;; Ok (JArr js)).
    rewrite H. reflexivity.
  - assert (H : mapM (fun kv => j <- json_dumps (snd kv) ;; Ok (fst kv, j))
                     (map (fun kj => (fst kj, of_json (snd kj))) l) = Ok l).
    { induction l as [|[k a] l IHl]; [reflexivity|].
      cbn [map mapM fst snd]. rewrite (IH a). cbn [rbind].
      change (match mapM (fun kv => j <- json_dumps (snd kv) ;; Ok (fst kv, j))
                         (map (fun kj => (fst kj, of_json (snd kj))) l) with
              | Ok bs => Ok ((k, a) :: bs) | Raise e => Raise e end = Ok ((k, a) :: l)).
      rewrite IHl. reflexivity. }
    change (json_dumps (of_json (JObj l)))
      with (kjs <- mapM (fun kv => j <- json_dumps (snd kv) ;; Ok (fst kv, j))
                        (map (fun kj => (fst kj, of_json (snd kj))) l) ;;
            Ok (JObj kjs)).
    rewrite H. reflexivity.
Qed.

(* ------------------------------------------------------------------ *)
(** *** One envelope, at most three calls *)

Lemma responds_last_respond_success (data : pyval) :
  responds_last (respond true data PNone).
Proof.
  intros w. destruct (json_dumps_total data) as [j Hj].
  rewrite (respond_success data j w Hj).
  exists (success j). split; [reflexivity|]. left. exists j. reflexivity.
Qed.

Lemma responds_last_respond_failure (msg : string) :
  responds_last (respond false PNone (PStr msg)).
Proof.
  intros w. rewrite respond_failure. exists (failure msg). split; [reflexivity|].
  right. exists (if String.eqb msg "" then "unknown error" else msg).
  split; [|reflexivity].
  destruct (String.eqb msg "") eqn:Em; [discriminate|].
  intros H. rewrite H in Em. discriminate.
Qed.

Lemma responds_last_bind {A} (m : M A) (k : A -> M unit) :
  quiet m -> (forall a, responds_last (k a)) -> responds_last (mbind m k).
Proof.
  intros Hm Hk w. unfold mbind. specialize (Hm w).
  destruct (m w) as [[a|e] w']; simpl in Hm.
  - specialize (Hk a w'). destruct (k a w') as [[u|e] w'']; rewrite <- Hm; exact Hk.
  - exact Hm.
Qed.

Lemma responds_last_main_body (stdin : string) : responds_last (main_body E stdin).
Proof.
  unfold main_body.
  repeat first
    [ apply responds_last_respond_success
    | apply responds_last_respond_failure
    | match goal with |- responds_last (if ?b then _ else _) => destruct b end
    | apply responds_last_bind;
      [ first [ apply quiet_lift | apply quiet_handle_search | apply quiet_handle_history
              | apply quiet_handle_news | apply quiet_handle_estimates
              | apply quiet_handle_info | apply quiet_handle_statements ]
      | intros ? ] ].
Qed.

(** X9.  Whatever the input and whatever the provider does, [main] returns
    normally and has written exactly one document, which is a success
    envelope or a failure envelope with a non-empty error. *)
Theorem main_one_envelope (stdin : string) (w : World) :
  exists j w', main E stdin w = (Ok tt, w') /\
               stdout w' = stdout w ++ [j] /\ envelope j.
Proof.
  unfold main, try_except. pose proof (responds_last_main_body stdin w) as H.
  destruct (main_body E stdin w) as [[[]|exc] w'].
  - destruct H as [j [Hj He]]. exists j, w'. repeat split; assumption.
  - pose proof (responds_last_respond_failure (exn_str exc) w') as H'.
    destruct (respond false PNone (PStr (exn_str exc)) w') as [[[]|e'] w''] eqn:Hr.
    + destruct H' as [j [Hj He]]. exists j, w''. split; [reflexivity|].
      split; [rewrite Hj, H; reflexivity | exact He].
    + rewrite respond_failure in Hr. discriminate.
Qed.

Lemma calls_within_mono {A} (n n' : nat) (m : M A) :
  n <= n' -> calls_within n m -> calls_within n' m.
Proof.
  intros Hle H w. destruct (H w) as [cs [Hcs Hlen]]. exists cs; split; [exact Hcs | lia].
Qed.

Lemma calls_within_lift {A} (r : result A) : calls_within 0 (lift r).
Proof. intros w. exists []. split; [symmetry; apply app_nil_r | simpl; lia]. Qed.

Lemma calls_within_ret {A} (a : A) : calls_within 0 (ret a).
Proof. intros w. exists []. split; [symmetry; apply app_nil_r | simpl; lia]. Qed.

Lemma calls_within_provider {A} (c : call) (r : result A) : calls_within 1 (provider c r).
Proof. intros w. exists [c]. split; [reflexivity | simpl; lia]. Qed.

Lemma calls_within_respond (ok : bool) (data error : pyval) :
  calls_within 0 (respond ok data error).
Proof.
  intros w. exists []. split; [|simpl; lia].
  unfold respond, mbind, lift, stdout_write.
  match goal with |- context [json_dumps ?p] => destruct (json_dumps p) end;
    symmetry; apply app_nil_r.
Qed.

Lemma calls_within_bind {A C} (n k : nat) (m : M A) (f : A -> M C) :
  calls_within n m -> (forall a, calls_within k (f a)) ->
  calls_within (n + k) (mbind m f).
Proof.
  intros Hm Hf w. unfold mbind. destruct (Hm w) as [cs [Hcs Hlen]].
  destruct (m w) as [[a|e] w']; simpl in Hcs.
  - destruct (Hf a w') as [cs' [Hcs' Hlen']].
    exists (cs ++ cs'). split; [rewrite Hcs', Hcs, app_assoc; reflexivity|].
    rewrite length_app. lia.
  - exists cs. split; [exact Hcs | lia].
Qed.

Ltac calls_steps :=
  repeat first
    [ apply calls_within_ret
    | apply calls_within_lift
    | apply calls_within_provider
    | apply (calls_within_mono 0 1); [lia | apply calls_within_ret]
    | match goal with
      | |- calls_within ?n (mbind (lift _) _) =>
          apply (calls_within_bind 0 n); [apply calls_within_lift | intros ?]
      | |- calls_within (S ?n) (mbind (provider _ _) _) =>
          apply (calls_within_bind 1 n); [apply calls_within_provider | intros ?]
      end ].

Lemma calls_within_handle_search (query : pyval) :
  calls_within 1 (handle_search E query).
Proof.
  unfold handle_search. calls_steps.
Qed.

Lemma calls_within_handle_history (symbol start_date end_date interval : pyval) :
  calls_within 2 (handle_history E symbol start_date end_date interval).
Proof. unfold handle_history. calls_steps. Qed.

Lemma calls_within_handle_news (symbol : pyval) : calls_within 2 (handle_news E symbol).
Proof. unfold handle_news. calls_steps. Qed.

Lemma calls_within_handle_estimates (symbol : pyval) :
  calls_within 2 (handle_estimates E symbol).
Proof. unfold handle_estimates. calls_steps. Qed.

Lemma calls_within_handle_info (symbol : pyval) : calls_within 2 (handle_info E symbol).
Proof. unfold handle_info. calls_steps. Qed.

Lemma calls_within_handle_statements (symbol statement_type : pyval) :
  calls_within 3 (handle_statements E symbol statement_type).
Proof.
  unfold handle_statements. destruct (statement_attrs statement_type) as [a q].
  calls_steps.
Qed.

Lemma calls_within_handled {A} (n : nat) (h : M A) (k : A -> M unit) :
  n <= 3 -> calls_within n h -> (forall a, calls_within 0 (k a)) ->
  calls_within 3 (mbind h k).
Proof.
  intros Hle Hh Hk. apply (calls_within_mono (n + 0) 3); [lia|].
  apply calls_within_bind; assumption.
Qed.

Lemma calls_within_main_body (stdin : string) : calls_within 3 (main_body E stdin).
Proof.
  unfold main_body.
  repeat first
    [ match goal with
      | |- calls_within 3 (if ?b then _ else _) => destruct b
      | |- calls_within 3 (mbind (lift _) _) =>
          apply (calls_within_bind 0 3); [apply calls_within_lift | intros ?]
      | |- calls_within 3 (respond _ _ _) =>
          apply (calls_within_mono 0 3); [lia | apply calls_within_respond]
      end
    | apply (calls_within_handled 1);
      [lia | apply calls_within_handle_search | intros ?; apply calls_within_respond]
    | apply (calls_within_handled 2);
      [ lia
      | first [ apply calls_within_handle_history | apply calls_within_handle_news
              | apply calls_within_handle_estimates | apply calls_within_handle_info ]
      | intros ?; apply calls_within_respond ]
    | apply (calls_within_handled 3);
      [lia | apply calls_within_handle_statements | intros ?; apply calls_within_respond] ].
Qed.

(** X10.  A run of [main] makes at most three calls to the provider. *)
Theorem main_calls_at_most_three (stdin : string) (w : World) :
  exists cs, calls (snd (main E stdin w)) = calls w ++ cs /\ List.length cs <= 3.
Proof.
  unfold main, try_except. destruct (calls_within_main_body stdin w) as [cs [Hcs Hlen]].
  destruct (main_body E stdin w) as [[u|exc] w']; simpl in Hcs.
  - exists cs. split; [exact Hcs | exact Hlen].
  - rewrite respond_failure. exists cs. split; [exact Hcs | exact Hlen].
Qed.

End DispatcherProperties.

Section RequestProperties.

Context {B : Builtins}.
Variable E : Env.

(** What a request object with a known action runs. *)
Ltac dispatch Hload Ha :=
  unfold main_body; rewrite Hload, mbind_lift_Ok; cbn [py_get];
  rewrite mbind_lift_Ok;
  match type of Ha with
  | dict_get ?p "action" = Some ?v =>
      let Hact := fresh "Hact" in
      assert (Hact : dict_get_or_None p "action" = v)
        by (unfold dict_get_or_None; rewrite Ha; reflexivity);
      rewrite !Hact
  end;
  repeat match goal with
         | |- context [eq_str (PStr ?a) ?b] =>
             let r := eval vm_compute in (eq_str (PStr a) b) in
             replace (eq_str (PStr a) b) with r by reflexivity
         end;
  rewrite ?mbind_lift_Ok; reflexivity.

Lemma main_body_search (stdin : string) (payload : dict) (w : World) :
  json_loads E (request_text stdin) = Ok (PDict payload) ->
  dict_get payload "action" = Some (PStr "search") ->
  main_body E stdin w =
  (data <~ handle_search E (dict_get_or_None payload "query") ;;
   respond true data PNone) w.
Proof. intros Hload Ha. dispatch Hload Ha. Qed.

Lemma main_body_history (stdin : string) (payload : dict) (w : World) :
  json_loads E (request_text stdin) = Ok (PDict payload) ->
  dict_get payload "action" = Some (PStr "history") ->
  main_body E stdin w =
  (data <~ handle_history E (dict_get_or_None payload "symbol")
             (dict_get_or_None payload "start_date")
             (dict_get_or_None payload "end_date")
             (dict_get_or_None payload "interval") ;;
   respond true data PNone) w.
Proof. intros Hload Ha. dispatch Hload Ha. Qed.

Lemma main_body_news (stdin : string) (payload : dict) (w : World) :
  json_loads E (request_text stdin) = Ok (PDict payload) ->
  dict_get payload "action" = Some (PStr "news") ->
  main_body E stdin w =
  (data <~ handle_news E (dict_get_or_None payload "symbol") ;;
   respond true data PNone) w.
Proof. intros Hload Ha. dispatch Hload Ha. Qed.

Lemma main_body_info (stdin : string) (payload : dict) (w : World) :
  json_loads E (request_text stdin) = Ok (PDict payload) ->
  dict_get payload "action" = Some (PStr "info") ->
  main_body E stdin w =
  (data <~ handle_info E (dict_get_or_None payload "symbol") ;;
   respond true data PNone) w.
Proof. intros Hload Ha. dispatch Hload Ha. Qed.

Lemma main_success (stdin : string) (h : M pyval) (w w1 : World)
    (data : pyval) (j : json) :
  main_body E stdin w = (data <~ h ;; respond true data PNone) w ->
  h w = (Ok data, w1) ->
  json_dumps data = Ok j ->
  main E stdin w = (Ok tt, mkWorld (stdout w1 ++ [success j]) (calls w1)).
Proof.
  intros Hbody Hh Hj. unfold main, try_except.
  rewrite Hbody, (mbind_run _ _ _ _ _ Hh), (respond_success _ _ _ Hj). reflexivity.
Qed.

Lemma main_failure (stdin : string) (h : M pyval) (w w1 : World) (e : exn) :
  main_body E stdin w = (data <~ h ;; respond true data PNone) w ->
  h w = (Raise e, w1) ->
  main E stdin w = (Ok tt, mkWorld (stdout w1 ++ [failure (exn_str e)]) (calls w1)).
Proof.
  intros Hbody Hh. unfold main, try_except.
  rewrite Hbody. unfold mbind at 1. rewrite Hh. apply respond_failure.
Qed.

(** X11.  A [history] request whose [interval] is a list or an object fails
    with the [unhashable type] error before the provider is called. *)
Theorem history_unhashable_interval (stdin : string) (payload : dict) (w : World) :
  json_loads E (request_text stdin) = Ok (PDict payload) ->
  dict_get payload "action" = Some (PStr "history") ->
  (forall s, dict_get_or_None payload "interval" <> PScalar s) ->
  main E stdin w =
    (Ok tt,
     mkWorld (stdout w ++ [failure ("unhashable type: '"
                                    ++ type_name (dict_get_or_None payload "interval")
                                    ++ "'")])
             (calls w)).
Proof.
  intros Hload Ha Hint.
  apply (main_failure stdin _ w w
           (TypeError ("unhashable type: '"
                       ++ type_name (dict_get_or_None payload "interval") ++ "'"))
           (main_body_history stdin payload w Hload Ha)).
  unfold handle_history.
  destruct (dict_get_or_None payload "interval") as [s|l|d];
    [exfalso; apply (Hint s); reflexivity | reflexivity | reflexivity].
Qed.

(** X12.  Mapping an interval twice is mapping it once: the codes the map
    produces, and every name it does not know, pass through unchanged. *)
Theorem interval_map_get_idempotent (interval yf_interval : pyval) :
  interval_map_get interval = Ok yf_interval ->
  interval_map_get yf_interval = Ok yf_interval.
Proof.
  unfold interval_map_get. intros H.
  destruct interval as [[| | | |s| | | |]|l|d]; inversion H; subst; try reflexivity.
  clear H.
  destruct (String.eqb s "minute") eqn:E1; [reflexivity|].
  destruct (String.eqb s "day") eqn:E2; [reflexivity|].
  destruct (String.eqb s "week") eqn:E3; [reflexivity|].
  destruct (String.eqb s "month") eqn:E4; [reflexivity|].
  destruct (String.eqb s "year") eqn:E5; [reflexivity|].
  cbv beta iota. rewrite E1, E2, E3, E4, E5. reflexivity.
Qed.

(** X13.  When the info of the ticker is a dict, or is falsy and so replaced
    by the empty dict, [handle_estimates] returns the eight estimate fields
    under [info], in their fixed order, each with the value of the info or
    [None] when the info has no such key; it has built the ticker and read
    its info, once each. *)
Theorem handle_estimates_fields (symbol info : pyval) (d : dict) (w : World) :
  yf_Ticker E symbol = Ok tt ->
  ticker_value E symbol "info" = Ok info ->
  py_or info (PDict []) = PDict d ->
  handle_estimates E symbol w =
    (Ok (PDict [("info",
                 PDict (map (fun k => (k, dict_get_or_None d k)) estimate_fields))]),
     mkWorld (stdout w) (calls w ++ [NewTicker symbol; TickerAttr symbol "info"])).
Proof.
  intros Ht Hi Hd. unfold handle_estimates.
  rewrite (mbind_provider_Ok _ _ tt _ _ Ht).
  rewrite (mbind_provider_Ok _ _ info _ _ Hi).
  rewrite Hd. unfold estimate_fields. cbn [mapM py_get rbind map].
  rewrite mbind_lift_Ok. unfold ret. cbn [stdout calls].
  rewrite <- app_assoc. reflexivity.
Qed.

(** X14.  When the info of the ticker is truthy but no dict, [handle_estimates]
    raises the [AttributeError] of the missing [get] method, where
    [handle_info] returns the value as it is. *)
Theorem handle_estimates_not_a_dict (symbol info : pyval) (w : World) :
  yf_Ticker E symbol = Ok tt ->
  ticker_value E symbol "info" = Ok info ->
  truthy info = true ->
  (forall d, info <> PDict d) ->
  handle_estimates E symbol w =
    (Raise (no_attribute info "get"),
     mkWorld (stdout w) (calls w ++ [NewTicker symbol; TickerAttr symbol "info"])) /\
  handle_info E symbol w =
    (Ok info,
     mkWorld (stdout w) (calls w ++ [NewTicker symbol; TickerAttr symbol "info"])).
Proof.
  intros Ht Hi Htrue Hnd. split.
  - unfold handle_estimates.
    rewrite (mbind_provider_Ok _ _ tt _ _ Ht).
    rewrite (mbind_provider_Ok _ _ info _ _ Hi).
    unfold py_or. rewrite Htrue. cbn [stdout calls]. rewrite <- app_assoc.
    destruct info as [s|l|d]; [| |exfalso; apply (Hnd d); reflexivity]; reflexivity.
  - unfold handle_info.
    rewrite (mbind_provider_Ok _ _ tt _ _ Ht).
    rewrite (mbind_provider_Ok _ _ info _ _ Hi).
    unfold py_or, ret. rewrite Htrue. cbn [stdout calls]. rewrite <- app_assoc.
    reflexivity.
Qed.

(** X15.  An [info] request for which the provider has no info, or a falsy
    one, is answered by the success envelope around the empty object. *)
Theorem info_request_without_info (stdin : string) (payload : dict) (info : pyval)
    (w : World) :
  let symbol := dict_get_or_None payload "symbol" in
  json_loads E (request_text stdin) = Ok (PDict payload) ->
  dict_get payload "action" = Some (PStr "info") ->
  yf_Ticker E symbol = Ok tt ->
  ticker_value E symbol "info" = Ok info ->
  truthy info = false ->
  main E stdin w =
    (Ok tt,
     mkWorld (stdout w ++ [success (JObj [])])
             (calls w ++ [NewTicker symbol; TickerAttr symbol "info"])).
Proof.
  intros symbol Hload Ha Ht Hi Hfalse.
  rewrite (main_success stdin _ w
             (mkWorld (stdout w) (calls w ++ [NewTicker symbol; TickerAttr symbol "info"]))
             (PDict []) (JObj []) (main_body_info stdin payload w Hload Ha)).
  - reflexivity.
  - fold symbol. unfold handle_info.
    rewrite (mbind_provider_Ok _ _ tt _ _ Ht).
    rewrite (mbind_provider_Ok _ _ info _ _ Hi).
    unfold py_or, ret. rewrite Hfalse. cbn [stdout calls]. rewrite <- app_assoc.
    reflexivity.
  - reflexivity.
Qed.

(** X16.  Every statement type other than [income] and [balance], a missing
    one included, selects the cash flow tables: [handle_statements] builds
    the ticker, reads [cashflow] and then [quarterly_cashflow], and returns
    their records. *)
Theorem handle_statements_default (symbol statement_type : pyval)
    (annual quarterly : option DataFrame) (ra rq : list dict) (w : World) :
  statement_type <> PStr "income" ->
  statement_type <> PStr "balance" ->
  yf_Ticker E symbol = Ok tt ->
  ticker_table E symbol "cashflow" = Ok annual ->
  ticker_table E symbol "quarterly_cashflow" = Ok quarterly ->
  df_to_records annual = Ok ra ->
  df_to_records quarterly = Ok rq ->
  handle_statements E symbol statement_type w =
    (Ok (PDict [("annual", records_value ra); ("quarterly", records_value rq)]),
     mkWorld (stdout w)
             (calls w ++ [NewTicker symbol; TickerAttr symbol "cashflow";
                          TickerAttr symbol "quarterly_cashflow"])).
Proof.
  intros Hi Hb Ht Ha Hq Hra Hrq. unfold handle_statements, statement_attrs.
  rewrite (eq_str_false _ _ Hi), (eq_str_false _ _ Hb).
  rewrite (mbind_provider_Ok _ _ tt _ _ Ht).
  rewrite (mbind_provider_Ok _ _ annual _ _ Ha).
  rewrite (mbind_provider_Ok _ _ quarterly _ _ Hq).
  rewrite Hra, mbind_lift_Ok, Hrq, mbind_lift_Ok.
  unfold ret. cbn [stdout calls]. rewrite <- !app_assoc. reflexivity.
Qed.

(** X17.  When the ticker cannot be built, no attribute of it is read: the
    handlers raise the exception of the constructor after that one call. *)
Theorem no_ticker_no_access (symbol statement_type : pyval) (e : exn) (w : World) :
  yf_Ticker E symbol = Raise e ->
  let failed := (Raise e, mkWorld (stdout w) (calls w ++ [NewTicker symbol])) in
  handle_news E symbol w = failed /\
  handle_estimates E symbol w = failed /\
  handle_info E symbol w = failed /\
  handle_statements E symbol statement_type w = failed.
Proof.
  intros Ht failed. unfold failed.
  unfold handle_news, handle_estimates, handle_info, handle_statements.
  unfold mbind, provider. rewrite Ht. repeat split; reflexivity.
Qed.

(** X18.  A [news] request is answered by the success envelope around the
    news of the provider, unmodified when they are native JSON data; the
    ticker is built and its news are read, once each. *)
Theorem news_passes_through (stdin : string) (payload : dict) (news : json) (w : World) :
  let symbol := dict_get_or_None payload "symbol" in
  json_loads E (request_text stdin) = Ok (PDict payload) ->
  dict_get payload "action" = Some (PStr "news") ->
  yf_Ticker E symbol = Ok tt ->
  ticker_value E symbol "news" = Ok (of_json news) ->
  main E stdin w =
    (Ok tt,
     mkWorld (stdout w ++ [success news])
             (calls w ++ [NewTicker symbol; TickerAttr symbol "news"])).
Proof.
  intros symbol Hload Ha Ht Hn.
  rewrite (main_success stdin _ w
             (mkWorld (stdout w) (calls w ++ [NewTicker symbol; TickerAttr symbol "news"]))
             (of_json news) news (main_body_news stdin payload w Hload Ha)).
  - reflexivity.
  - fold symbol. unfold handle_news.
    rewrite (mbind_provider_Ok _ _ tt _ _ Ht).
    unfold provider. rewrite Hn. cbn [stdout calls]. rewrite <- app_assoc. reflexivity.
  - apply json_dumps_of_json.
Qed.

(** X19.  A [search] request makes one HTTP call, to the search address with
    the query under [q] and the fixed language and region; when the status
    is good the body of the response is written unmodified inside the
    success envelope. *)
Theorem search_passes_through (stdin : string) (payload : dict) (resp : Response)
    (body : json) (w : World) :
  let params := [("q", dict_get_or_None payload "query");
                 ("lang", PStr "en-US"); ("region", PStr "US")] in
  json_loads E (request_text stdin) = Ok (PDict payload) ->
  dict_get payload "action" = Some (PStr "search") ->
  requests_get E search_url params = Ok resp ->
  raise_for_status resp = Ok tt ->
  response_json resp = Ok (of_json body) ->
  main E stdin w =
    (Ok tt,
     mkWorld (stdout w ++ [success body]) (calls w ++ [HttpGet search_url params])).
Proof.
  intros params Hload Ha Hget Hstatus Hbody.
  rewrite (main_success stdin _ w
             (mkWorld (stdout w) (calls w ++ [HttpGet search_url params]))
             (of_json body) body (main_body_search stdin payload w Hload Ha)).
  - reflexivity.
  - unfold handle_search. fold params.
    rewrite (mbind_provider_Ok _ _ resp _ _ Hget).
    rewrite Hstatus, mbind_lift_Ok, Hbody. reflexivity.
  - apply json_dumps_of_json.
Qed.

(** X20.  A [search] request whose response has an error status is answered
    by the failure envelope with the text of that error, after the one HTTP
    call. *)
Theorem search_error_status (stdin : string) (payload : dict) (resp : Response)
    (e : exn) (w : World) :
  let params := [("q", dict_get_or_None payload "query");
                 ("lang", PStr "en-US"); ("region", PStr "US")] in
  json_loads E (request_text stdin) = Ok (PDict payload) ->
  dict_get payload "action" = Some (PStr "search") ->
  requests_get E search_url params = Ok resp ->
  raise_for_status resp = Raise e ->
  main E stdin w =
    (Ok tt,
     mkWorld (stdout w ++ [failure (exn_str e)]) (calls w ++ [HttpGet search_url params])).
Proof.
  intros params Hload Ha Hget Hstatus.
  rewrite (main_failure stdin _ w
             (mkWorld (stdout w) (calls w ++ [HttpGet search_url params])) e
             (main_body_search stdin payload w Hload Ha)).
  - reflexivity.
  - unfold handle_search. fold params.
    rewrite (mbind_provider_Ok _ _ resp _ _ Hget).
    rewrite Hstatus. reflexivity.
Qed.

End RequestProperties.

(* ------------------------------------------------------------------ *)
(** *** The properties of the dispatcher at sample providers *)

Lemma history_unhashable_interval_witness :
  main (B := sample_builtins)
       (answering (PDict [("action", PStr "history"); ("symbol", PStr "AAPL");
                          ("interval", PList [])]) PNone)
       "request" world0 =
    (Ok tt, mkWorld [failure "unhashable type: 'list'"] []).
Proof.
  apply (history_unhashable_interval (B := sample_builtins)
           (answering (PDict [("action", PStr "history"); ("symbol", PStr "AAPL");
                              ("interval", PList [])]) PNone)
           "request"
           [("action", PStr "history"); ("symbol", PStr "AAPL"); ("interval", PList [])]
           world0 eq_refl eq_refl).
  intros s H. discriminate H.
Defined.

Lemma interval_map_get_idempotent_witness :
  interval_map_get (PStr "day") = Ok (PStr "1d") /\
  interval_map_get (PStr "1d") = Ok (PStr "1d").
Proof.
  split; [reflexivity|].
  apply (interval_map_get_idempotent (PStr "day") (PStr "1d") eq_refl).
Defined.

Lemma handle_estimates_fields_witness :
  handle_estimates (answering PNone (PDict sample_info)) (PStr "AAPL") world0 =
    (Ok (PDict [("info",
                 PDict [("targetMeanPrice", PFloat (float_of_Z 200));
                        ("targetHighPrice", PNone); ("targetLowPrice", PNone);
                        ("recommendationMean", PNone); ("recommendationKey", PStr "buy");
                        ("numberOfAnalystOpinions", PNone); ("forwardEps", PNone);
                        ("trailingEps", PNone)])]),
     mkWorld [] [NewTicker (PStr "AAPL"); TickerAttr (PStr "AAPL") "info"]).
Proof.
  apply (handle_estimates_fields (answering PNone (PDict sample_info)) (PStr "AAPL")
           (PDict sample_info) sample_info world0 eq_refl eq_refl eq_refl).
Defined.

Lemma handle_estimates_not_a_dict_witness :
  handle_estimates (answering PNone (PStr "unavailable")) (PStr "AAPL") world0 =
    (Raise (AttributeError "'str' object has no attribute 'get'"),
     mkWorld [] [NewTicker (PStr "AAPL"); TickerAttr (PStr "AAPL") "info"]) /\
  handle_info (answering PNone (PStr "unavailable")) (PStr "AAPL") world0 =
    (Ok (PStr "unavailable"),
     mkWorld [] [NewTicker (PStr "AAPL"); TickerAttr (PStr "AAPL") "info"]).
Proof.
  apply (handle_estimates_not_a_dict (answering PNone (PStr "unavailable")) (PStr "AAPL")
           (PStr "unavailable") world0 eq_refl eq_refl eq_refl).
  intros d H. discriminate H.
Defined.

Lemma info_request_without_info_witness :
  main (B := sample_builtins)
       (answering (PDict [("action", PStr "info"); ("symbol", PStr "AAPL")]) PNone)
       "request" world0 =
    (Ok tt,
     mkWorld [success (JObj [])]
             [NewTicker (PStr "AAPL"); TickerAttr (PStr "AAPL") "info"]).
Proof.
  apply (info_request_without_info (B := sample_builtins)
           (answering (PDict [("action", PStr "info"); ("symbol", PStr "AAPL")]) PNone)
           "request" [("action", PStr "info"); ("symbol", PStr "AAPL")] PNone world0
           eq_refl eq_refl eq_refl eq_refl eq_refl).
Defined.

(** No statement type at all. *)
Lemma handle_statements_default_witness :
  exists ra,
    df_to_records (B := sample_builtins) (Some income_table) = Ok ra /\
    handle_statements (B := sample_builtins) (answering PNone PNone) (PStr "AAPL") PNone
                      world0 =
      (Ok (PDict [("annual", records_value ra); ("quarterly", records_value ra)]),
       mkWorld [] [NewTicker (PStr "AAPL"); TickerAttr (PStr "AAPL") "cashflow";
                   TickerAttr (PStr "AAPL") "quarterly_cashflow"]).
Proof.
  eexists. split; [reflexivity|].
  apply (handle_statements_default (B := sample_builtins) (answering PNone PNone)
           (PStr "AAPL") PNone (Some income_table) (Some income_table));
    try reflexivity; intros H; discriminate H.
Defined.

Lemma no_ticker_no_access_witness :
  handle_news no_ticker_env PNone world0 =
    (Raise (AttributeError "'NoneType' object has no attribute 'upper'"),
     mkWorld [] [NewTicker PNone]) /\
  handle_statements (B := sample_builtins) no_ticker_env PNone (PStr "income") world0 =
    (Raise (AttributeError "'NoneType' object has no attribute 'upper'"),
     mkWorld [] [NewTicker PNone]).
Proof.
  destruct (no_ticker_no_access (B := sample_builtins) no_ticker_env PNone (PStr "income")
              (AttributeError "'NoneType' object has no attribute 'upper'") world0 eq_refl)
    as [Hn [_ [_ Hs]]].
  split; [exact Hn | exact Hs].
Defined.

Lemma news_passes_through_witness :
  main (B := sample_builtins)
       (answering (PDict [("action", PStr "news"); ("symbol", PStr "AAPL")]) PNone)
       "request" world0 =
    (Ok tt,
     mkWorld [success sample_news]
             [NewTicker (PStr "AAPL"); TickerAttr (PStr "AAPL") "news"]).
Proof.
  apply (news_passes_through (B := sample_builtins)
           (answering (PDict [("action", PStr "news"); ("symbol", PStr "AAPL")]) PNone)
           "request" [("action", PStr "news"); ("symbol", PStr "AAPL")] sample_news world0
           eq_refl eq_refl eq_refl eq_refl).
Defined.

Lemma search_passes_through_witness :
  main (B := sample_builtins)
       (answering (PDict [("action", PStr "search"); ("query", PStr "apple")]) PNone)
       "request" world0 =
    (Ok tt,
     mkWorld [success sample_news]
             [HttpGet search_url [("q", PStr "apple"); ("lang", PStr "en-US");
                                  ("region", PStr "US")]]).
Proof.
  apply (search_passes_through (B := sample_builtins)
           (answering (PDict [("action", PStr "search"); ("query", PStr "apple")]) PNone)
           "request" [("action", PStr "search"); ("query", PStr "apple")]
           (mkResponse (Ok tt) (Ok (of_json sample_news))) sample_news world0
           eq_refl eq_refl eq_refl eq_refl eq_refl).
Defined.

Lemma search_error_status_witness :
  main (B := sample_builtins) rejecting_env "request" world0 =
    (Ok tt,
     mkWorld [failure "404 Client Error: Not Found for url"]
             [HttpGet search_url [("q", PStr "apple"); ("lang", PStr "en-US");
                                  ("region", PStr "US")]]).
Proof.
  apply (search_error_status (B := sample_builtins) rejecting_env "request"
           [("action", PStr "search"); ("query", PStr "apple")] not_found
           (mkExn "HTTPError" "404 Client Error: Not Found for url") world0
           eq_refl eq_refl eq_refl eq_refl).
Defined.

Section HistoryRequests.

Context {B : Builtins}.
Variable E : Env.



End HistoryRequests.

